(** * GrainHero farm-management backend: alert fan-out, role gates and
      resource routers, embedded from the JavaScript sources.

    Definitions, in the order of the layers of the server:
    - [Outcome]     awaited calls that return or throw;
    - [Js]          JSON values and the array and string methods used;
    - [Farmhouse], [Alert], [FarmhouseUsers]
                    the Mongoose models, typed by their schemas;
    - [Store], [Platform], [Mongoose]
                    the collections, what the engine, Mongoose and the
                    driver decide, and the model methods the routers call;
    - [Express], [Middleware], [JsExpr]
                    requests, middleware chains, route registrations;
    - [AlertFeed]   the WebSocket server of the entry point;
    - [AlertsRouter], [FarmhouseRouter], [CrudRouters],
      [FarmhouseUsersRouter], [Csv]
                    the routers and the CSV helper they share.
    The properties follow, one module for each group of routes. *)

From Stdlib Require Import String Ascii List ZArith QArith Bool Lia.
From stdpp Require Import base option list strings gmap.

(** ** Exceptions

    An awaited database call either returns or throws an [Error] whose
    [message] is a string.  [Outcome] is the error monad in which the bodies
    of the [try] blocks are written; [try_catch] is the [catch (err)]
    clause, which receives [err.message]. *)

Inductive Outcome (A : Type) : Type :=
| Ok (a : A)
| Throw (message : string).
Arguments Ok {A} a.
Arguments Throw {A} message.

#[global] Instance Outcome_ret : MRet Outcome := fun _ a => Ok a.
#[global] Instance Outcome_bind : MBind Outcome := fun _ _ k c =>
  match c with
  | Ok a => k a
  | Throw message => Throw message
  end.

Definition try_catch {A : Type} (body : Outcome A) (handler : string -> A) : A :=
  match body with
  | Ok a => a
  | Throw message => handler message
  end.

(** ** JavaScript values *)

Module Js.

(** A parsed JSON value; an absent property ([undefined]) is [None] at
    type [option JVal]. *)
#[local] Unset Elimination Schemes.
Inductive JVal : Type :=
| JNull
| JBool (b : bool)
| JNum (q : Q)
| JStr (s : string)
| JArr (items : list JVal)
| JObj (fields : list (string * JVal)).
#[local] Set Elimination Schemes.

(** [!v] is [negb (truthy v)]. *)
Definition truthy (v : option JVal) : bool :=
  match v with
  | None | Some JNull => false
  | Some (JBool b) => b
  | Some (JNum q) => negb (Qeq_bool q 0)
  | Some (JStr s) => negb (String.eqb s "")
  | Some (JArr _) | Some (JObj _) => true
  end.

(** [v === undefined] *)
Definition is_undefined (v : option JVal) : bool :=
  match v with None => true | Some _ => false end.

(** [Boolean(s)] for a property whose schema type is [String]: it holds a
    string or is unset. *)
Definition Boolean (s : option string) : bool :=
  match s with
  | None => false
  | Some str => negb (String.eqb str "")
  end.

(** Strict equality of two such properties ([undefined === undefined]
    holds). *)
Definition same_value (a b : option string) : bool :=
  match a, b with
  | None, None => true
  | Some x, Some y => String.eqb x y
  | _, _ => false
  end.

(** [Array.prototype.includes] *)
Definition includes (xs : list (option string)) (x : option string) : bool :=
  existsb (same_value x) xs.

(** [includes] and [indexOf] on an array of identifiers. *)
Definition includes_id (xs : list string) (x : string) : bool :=
  existsb (String.eqb x) xs.

Fixpoint indexOf (xs : list string) (x : string) : option nat :=
  match xs with
  | [] => None
  | y :: ys => if String.eqb x y then Some 0 else S <$> indexOf ys x
  end.

(** [xs.splice(idx, 1)] *)
Fixpoint splice1 (xs : list string) (idx : nat) : list string :=
  match xs, idx with
  | [], _ => []
  | _ :: ys, 0 => ys
  | y :: ys, S i => y :: splice1 ys i
  end.

(** [xs.join(sep)] on an array of strings. *)
Fixpoint join (sep : string) (xs : list string) : string :=
  match xs with
  | [] => ""
  | [x] => x
  | x :: rest => x +:+ sep +:+ join sep rest
  end.

(** [s.split(c)] for a one-character separator: the pieces between the
    occurrences of [c] (["".split(c)] is [[""]]). *)
Fixpoint split (c : ascii) (s : string) : list string :=
  match s with
  | EmptyString => [""]
  | String d s' =>
      if Ascii.eqb d c then "" :: split c s'
      else match split c s' with
           | piece :: pieces => String d piece :: pieces
           | [] => [String d ""]
           end
  end.

End Js.

(** ** Models *)

Module Farmhouse.
(** [models/Farmhouse.js]: [name] is required, every other path optional. *)
Record t : Type := mk {
  _id : string;
  f_id : option string;
  name : option string;
  manager : option string;
  admin : option string;
  assistants : list string;
  location : option string
}.
End Farmhouse.

Module Alert.
(** The alert documents as the alert router builds them:
    [new Alert({ title, category, location, description })]. *)
Record t : Type := mk {
  _id : string;
  title : option string;
  category : option string;
  location : option string;
  description : option string
}.
End Alert.

Module FarmhouseUsers.
(** [models/FarmhouseUsers.js] *)
Record t : Type := mk {
  adminId : string;
  managers : list string;
  assistants : list string
}.
End FarmhouseUsers.

(** A document of the CRUD routers: a JavaScript object. *)
Abbreviation Doc := (gmap string Js.JVal).

(** ** The document store *)

Module Store.

Inductive DocCollection : Type :=
| Animals | Breedings | Vaccinations | HealthRecords.

Inductive Collection : Type :=
| Docs (c : DocCollection)
| Farmhouses
| FarmhouseUsersC
| Alerts
| Users.

#[global] Instance DocCollection_eq_dec : EqDecision DocCollection.
Proof. solve_decision. Defined.

Record t : Type := mk {
  docs : DocCollection -> list Doc;
  farmhouses : list Farmhouse.t;
  farmhouseUsers : list FarmhouseUsers.t;
  alerts : list Alert.t
}.

Definition set_docs (c : DocCollection) (ds : list Doc) (db : t) : t :=
  mk (fun c' => if decide (c' = c) then ds else docs db c')
     (farmhouses db) (farmhouseUsers db) (alerts db).

Definition set_farmhouses (fhs : list Farmhouse.t) (db : t) : t :=
  mk (docs db) fhs (farmhouseUsers db) (alerts db).

Definition set_farmhouseUsers (fus : list FarmhouseUsers.t) (db : t) : t :=
  mk (docs db) (farmhouses db) fus (alerts db).

Definition set_alerts (als : list Alert.t) (db : t) : t :=
  mk (docs db) (farmhouses db) (farmhouseUsers db) als.

End Store.

(** ** What the sources leave to the platform

    The handlers rely on the JavaScript engine, on Mongoose and on the
    database driver for behaviour that no file of the repository fixes.
    It is gathered here and every handler is parameterised by it. *)

Module Platform.

Record t : Type := mk {
  (** [ToNumber] on a value that is not a number; [None] is [NaN]. *)
  ToNumber : Js.JVal -> option Q;
  (** String conversion of a value that is not a string (casts to the
      [String] schema type); [None] is a [CastError]. *)
  castToString : Js.JVal -> option string;
  (** The error a call on a collection throws, if the driver fails
      (a lost connection, a timed-out cursor). *)
  faults : Store.Collection -> option string;
  (** The [ObjectId] generated for a new document. *)
  newId : Store.t -> string;
  (** [Math.random().toString(36).substr(2, 9).toUpperCase()] of the
      farmhouse pre-save hook. *)
  randomSuffix : Store.t -> string;
  (** The strings that cast to an [ObjectId]. *)
  isObjectId : string -> bool;
  (** The validators and casts of a schema other than [required]
      (enumerations, [Number] and [Date] casts, unique indexes): the
      message of the error they raise on a document, if any. *)
  validators : Store.DocCollection -> Doc -> option string;
  (** The validators of [models/Alert.js], which is not among the
      sources. *)
  alertValidators : Alert.t -> option string
}.

Definition healthy (P : t) : Prop := forall c, faults P c = None.

(** The driver throws [message] on every call. *)
Definition down (P : t) (message : string) : Prop :=
  forall c, faults P c = Some message.

End Platform.

(** ** Mongoose *)

Module Mongoose.
Import Store.

Section WithPlatform.
Variable P : Platform.t.

(** Every query and write goes through the driver. *)
Definition call (c : Collection) : Outcome unit :=
  match Platform.faults P c with
  | Some message => Throw message
  | None => Ok tt
  end.

(** The value of a number-typed expression: [ToNumber(v)]. *)
Definition to_number (v : option Js.JVal) : option Q :=
  match v with
  | None => None
  | Some (Js.JNum q) => Some q
  | Some other => Platform.ToNumber P other
  end.

(** [isNaN(v)] *)
Definition isNaN (v : option Js.JVal) : bool :=
  match to_number v with None => true | Some _ => false end.

(** [v <= 0] and [v < 0]: false when [v] converts to [NaN]. *)
Definition le_zero (v : option Js.JVal) : bool :=
  match to_number v with None => false | Some q => Qle_bool q 0 end.

Definition lt_zero (v : option Js.JVal) : bool :=
  match to_number v with None => false | Some q => negb (Qle_bool 0 q) end.

(** Cast of a body value to a [String] path: unset for [undefined] and
    [null]. *)
Definition castString (v : option Js.JVal) : Outcome (option string) :=
  match v with
  | None | Some Js.JNull => Ok None
  | Some (Js.JStr s) => Ok (Some s)
  | Some other =>
      match Platform.castToString P other with
      | Some s => Ok (Some s)
      | None => Throw "Cast to string failed"
      end
  end.

(** Cast of a body value to a [[String]] path: unset gives the empty
    array. *)
Fixpoint castStrings (items : list Js.JVal) : Outcome (list string) :=
  match items with
  | [] => Ok []
  | v :: rest =>
      s ← castString (Some v);
      ss ← castStrings rest;
      mret (default "" s :: ss)
  end.

Definition castStringArray (v : option Js.JVal) : Outcome (list string) :=
  match v with
  | None | Some Js.JNull => Ok []
  | Some (Js.JArr items) => castStrings items
  | Some other => s ← castString (Some other); mret [default "" s]
  end.

(** Cast of a string to an [ObjectId]. *)
Definition castObjectId (s : string) : Outcome string :=
  if Platform.isObjectId P s then Ok s else Throw "Cast to ObjectId failed".

(** Cast of a body value to an [ObjectId]: identifiers travel as strings. *)
Definition castId (v : option Js.JVal) : Outcome string :=
  match v with
  | Some (Js.JStr s) => castObjectId s
  | _ => Throw "Cast to ObjectId failed"
  end.

(** The text of a body value inside a template string. *)
Definition text (v : option Js.JVal) : string :=
  match v with
  | Some (Js.JStr s) => s
  | Some other => default "" (Platform.castToString P other)
  | None => "undefined"
  end.

(** The [required] validator: the value is set, and not the empty string. *)
Definition required_ok (v : option Js.JVal) : bool :=
  match v with
  | None | Some Js.JNull => false
  | Some (Js.JStr s) => negb (String.eqb s "")
  | Some _ => true
  end.

Definition required_str_ok (v : option string) : bool := Js.Boolean v.

(** The paths marked [required: true] in the schemas of [models/]. *)
Definition required_paths (c : DocCollection) : list string :=
  match c with
  | Animals =>
      ["tagId"; "breed"; "gender"; "dob"; "weight"; "condition"; "status";
       "farmhouse"; "acquisitionType"; "acquisitionDate"]
  | Breedings => ["sireTagId"; "damTagId"; "breedingDate"]
  | Vaccinations => ["animalTagId"; "vaccineName"; "treatmentDate"]
  | HealthRecords => ["animalTagId"; "healthIssue"; "treatmentDate"]
  end.

(** [doc.validate()], run by [save] and [insertMany] before any write. *)
Definition validate (c : DocCollection) (doc : Doc) : Outcome unit :=
  match List.find (fun p => negb (required_ok (doc !! p))) (required_paths c) with
  | Some p => Throw ("Path `" +:+ p +:+ "` is required.")
  | None =>
      match Platform.validators P c doc with
      | Some message => Throw message
      | None => Ok tt
      end
  end.

(** [new Model(doc).save()] *)
Definition save (c : DocCollection) (doc : Doc) (db : Store.t)
  : Outcome (Doc * Store.t) :=
  _ ← validate c doc;
  _ ← call (Docs c);
  let stored := <["_id" := Js.JStr (Platform.newId P db)]> doc in
  mret (stored, set_docs c (docs db c ++ [stored]) db).

(** [Model.insertMany(docs)]: every document is validated, then all are
    written in order. *)
Fixpoint validate_all (c : DocCollection) (ds : list Doc) : Outcome unit :=
  match ds with
  | [] => Ok tt
  | d :: rest => _ ← validate c d; validate_all c rest
  end.

Fixpoint store_all (c : DocCollection) (ds : list Doc) (db : Store.t)
  : list Doc * Store.t :=
  match ds with
  | [] => ([], db)
  | d :: rest =>
      let stored := <["_id" := Js.JStr (Platform.newId P db)]> d in
      let '(inserted, db') := store_all c rest (set_docs c (docs db c ++ [stored]) db) in
      (stored :: inserted, db')
  end.

Definition insertMany (c : DocCollection) (ds : list Doc) (db : Store.t)
  : Outcome (list Doc * Store.t) :=
  _ ← validate_all c ds;
  _ ← call (Docs c);
  mret (store_all c ds db).

(** [Model.find().lean()] *)
Definition find_all (c : DocCollection) (db : Store.t) : Outcome (list Doc) :=
  _ ← call (Docs c); mret (docs db c).

Definition has_id (id : string) (d : Doc) : bool :=
  match d !! "_id" with
  | Some (Js.JStr s) => String.eqb s id
  | _ => false
  end.

Fixpoint remove_first {A : Type} (p : A -> bool) (l : list A) : list A :=
  match l with
  | [] => []
  | x :: rest => if p x then rest else x :: remove_first p rest
  end.

(** [Model.findByIdAndDelete(id)] *)
Definition findByIdAndDelete (c : DocCollection) (id : string) (db : Store.t)
  : Outcome (option Doc * Store.t) :=
  oid ← castObjectId id;
  _ ← call (Docs c);
  match List.find (has_id oid) (docs db c) with
  | Some d => mret (Some d, set_docs c (remove_first (has_id oid) (docs db c)) db)
  | None => mret (None, db)
  end.

(** *** Farmhouses *)

(** [Farmhouse.find(query)] *)
Definition Farmhouse_find (query : Farmhouse.t -> bool) (db : Store.t)
  : Outcome (list Farmhouse.t) :=
  _ ← call Farmhouses; mret (List.filter query (farmhouses db)).

(** The queries [{ admin: userId }], [{ manager: userId }] and
    [{ assistants: userId }] (the last one matches a document whose array
    holds the value). *)
Definition q_admin (userId : string) (fh : Farmhouse.t) : bool :=
  Js.same_value (Farmhouse.admin fh) (Some userId).
Definition q_manager (userId : string) (fh : Farmhouse.t) : bool :=
  Js.same_value (Farmhouse.manager fh) (Some userId).
Definition q_assistants (userId : string) (fh : Farmhouse.t) : bool :=
  Js.includes_id (Farmhouse.assistants fh) userId.

(** [Farmhouse.findById(id)] *)
Definition Farmhouse_findById (id : string) (db : Store.t)
  : Outcome (option Farmhouse.t) :=
  oid ← castObjectId id;
  _ ← call Farmhouses;
  mret (List.find (fun fh => String.eqb (Farmhouse._id fh) oid) (farmhouses db)).

(** [Farmhouse.findByIdAndDelete(id)] *)
Definition Farmhouse_findByIdAndDelete (id : string) (db : Store.t)
  : Outcome (option Farmhouse.t * Store.t) :=
  oid ← castObjectId id;
  _ ← call Farmhouses;
  let is_it := fun fh => String.eqb (Farmhouse._id fh) oid in
  match List.find is_it (farmhouses db) with
  | Some fh => mret (Some fh, set_farmhouses (remove_first is_it (farmhouses db)) db)
  | None => mret (None, db)
  end.

(** [farmhouse.save()] of a new document: validation ([name] is required),
    then the pre-save hook that fills [f_id], then the write. *)
Definition Farmhouse_save (fh : Farmhouse.t) (db : Store.t)
  : Outcome (Farmhouse.t * Store.t) :=
  if negb (required_str_ok (Farmhouse.name fh))
  then Throw "Farmhouse validation failed: name: Path `name` is required."
  else
    let f_id :=
      if Js.Boolean (Farmhouse.f_id fh) then Farmhouse.f_id fh
      else Some ("FARM-" +:+ Platform.randomSuffix P db) in
    let stored :=
      Farmhouse.mk (Farmhouse._id fh) f_id (Farmhouse.name fh)
        (Farmhouse.manager fh) (Farmhouse.admin fh) (Farmhouse.assistants fh)
        (Farmhouse.location fh) in
    _ ← call Farmhouses;
    mret (stored, set_farmhouses (farmhouses db ++ [stored]) db).

(** *** Alerts *)

(** [Alert.find()] *)
Definition Alert_find (db : Store.t) : Outcome (list Alert.t) :=
  _ ← call Alerts; mret (alerts db).

(** [Alert.find({ location })] *)
Definition Alert_find_location (location : string) (db : Store.t)
  : Outcome (list Alert.t) :=
  _ ← call Alerts;
  mret (List.filter (fun a => Js.same_value (Alert.location a) (Some location))
          (alerts db)).

(** [alert.save()] of a new document. *)
Definition Alert_save (a : Alert.t) (db : Store.t) : Outcome (Alert.t * Store.t) :=
  match Platform.alertValidators P a with
  | Some message => Throw message
  | None => _ ← call Alerts; mret (a, set_alerts (alerts db ++ [a]) db)
  end.

(** [Alert.findByIdAndDelete(id)] *)
Definition Alert_findByIdAndDelete (id : string) (db : Store.t)
  : Outcome (option Alert.t * Store.t) :=
  oid ← castObjectId id;
  _ ← call Alerts;
  let is_it := fun a => String.eqb (Alert._id a) oid in
  match List.find is_it (alerts db) with
  | Some a => mret (Some a, set_alerts (remove_first is_it (alerts db)) db)
  | None => mret (None, db)
  end.

(** *** FarmhouseUsers *)

(** [FarmhouseUsers.findOne({ adminId })] *)
Definition FarmhouseUsers_findOne (adminId : string) (db : Store.t)
  : Outcome (option FarmhouseUsers.t) :=
  oid ← castObjectId adminId;
  _ ← call FarmhouseUsersC;
  mret (List.find (fun d => String.eqb (FarmhouseUsers.adminId d) oid)
          (farmhouseUsers db)).

Fixpoint replace_first {A : Type} (p : A -> bool) (y : A) (l : list A) : list A :=
  match l with
  | [] => []
  | x :: rest => if p x then y :: rest else x :: replace_first p y rest
  end.

(** [doc.save()] of a new document ([isNew]; the index on [adminId] is
    unique) or of one read by [findOne]. *)
Definition FarmhouseUsers_save (isNew : bool) (d : FarmhouseUsers.t) (db : Store.t)
  : Outcome Store.t :=
  _ ← call FarmhouseUsersC;
  if isNew then
    if existsb (fun d' => String.eqb (FarmhouseUsers.adminId d') (FarmhouseUsers.adminId d))
         (farmhouseUsers db)
    then Throw "E11000 duplicate key error: adminId"
    else mret (set_farmhouseUsers (farmhouseUsers db ++ [d]) db)
  else
    mret (set_farmhouseUsers
            (replace_first
               (fun d' => String.eqb (FarmhouseUsers.adminId d') (FarmhouseUsers.adminId d))
               d (farmhouseUsers db))
            db).

End WithPlatform.

End Mongoose.

(** ** HTTP: requests, responses, middleware chains *)

Inductive Body : Type :=
| BError (error : string)                     (* { error } *)
| BMsg (msg : string)                         (* { msg } *)
| BMessage (message : string)                 (* { message } *)
| BAlerts (alerts : list Alert.t)
| BAlert (alert : Alert.t)
| BFarmhouses (farmhouses : list Farmhouse.t)
| BFarmhouse (farmhouse : Farmhouse.t)
| BDoc (message : string) (doc : Doc)         (* { message, <resource>: doc } *)
| BFarmhouseUser (message : string) (farmhouseUser : option FarmhouseUsers.t)
| BImported (message : string) (insertedCount : nat)
    (invalid : list (gmap string string))
| BInvalid (error : string) (invalid : list (gmap string string)).

Record Response : Type := respond { status : nat; content : Body }.

(** [res.json(x)] without [res.status] answers 200. *)
Definition json (b : Body) : Response := respond 200 b.

Module Express.

(** [req.user], the decoded token. *)
Record User : Type := mkUser {
  id : string;
  role : string;
  farmhouse : option string;
  location : option string
}.

Record Request : Type := mkRequest {
  user : option User;
  params : gmap string string;
  body : Doc
}.

(** [req.params.k]; the route pattern guarantees it is there. *)
Definition param (req : Request) (k : string) : string :=
  default "" (params req !! k).

(** [req.user.id] and [req.user.role]: a [TypeError] when [req.user] is
    not set. *)
Definition user_of (req : Request) : Outcome User :=
  match user req with
  | Some u => Ok u
  | None => Throw "Cannot read properties of undefined"
  end.

(** A middleware calls [next()] or answers. *)
Inductive Step : Type :=
| Next (req : Request)
| Reply (res : Response).

Definition Middleware : Type := Request -> Step.

(** A handler answers and may write to the store; a [Throw] is an
    exception that escapes the handler (no response is sent). *)
Definition Handler : Type := Request -> Store.t -> Outcome (Response * Store.t).

(** [router.METHOD(path, m1, ..., mn, handler)] *)
Fixpoint route (chain : list Middleware) (h : Handler) (req : Request) (db : Store.t)
  : Outcome (Response * Store.t) :=
  match chain with
  | [] => h req db
  | m :: rest =>
      match m req with
      | Next req' => route rest h req' db
      | Reply res => Ok (res, db)
      end
  end.

End Express.

(** ** Middleware *)

Module Middleware.
Import Express.

(** [middleware/manager.js] *)
Definition manager (req : Request) : Step :=
  match user req with
  | Some u =>
      if String.eqb (role u) "manager" then Next req
      else Reply (respond 403 (BMsg "Access denied. Manager privileges required."))
  | None => Reply (respond 403 (BMsg "Access denied. Manager privileges required."))
  end.

(** Modelled from the spec: [middleware/superadmin.js] is not among the
    sources.  The spec describes the gating functions as predicates on the
    role of the decoded token ("check [role === ...]") that answer 403 to
    any other role; [required] is the literal the file compares with. *)
Definition superadmin (required : string) (req : Request) : Step :=
  match user req with
  | Some u =>
      if String.eqb (role u) required then Next req
      else Reply (respond 403 (BMsg "Access denied. Super admin only."))
  | None => Reply (respond 403 (BMsg "Access denied. Super admin only."))
  end.

End Middleware.

(** ** Module scopes and the expressions passed to [router.METHOD]

    The arguments of a route registration are expressions evaluated once,
    when the router module is loaded, in the scope of that module. *)

Module JsExpr.
Import Express.

Inductive Value : Type :=
| VUndefined
| VObject
| VFunction (f : Middleware).

Definition truthy (v : Value) : bool :=
  match v with
  | VUndefined => false
  | VObject | VFunction _ => true
  end.

Inductive Expr : Type :=
| Ident (x : string)
| Or (a b : Expr).

(** An identifier that is not declared raises a [ReferenceError];
    [a || b] evaluates [b] only if [a] is falsy. *)
Fixpoint eval (scope : gmap string Value) (e : Expr) : Outcome Value :=
  match e with
  | Ident x =>
      match scope !! x with
      | Some v => Ok v
      | None => Throw (x +:+ " is not defined")
      end
  | Or a b =>
      va ← eval scope a;
      if truthy va then mret va else eval scope b
  end.

(** The middleware arguments of a registration; express refuses an
    argument that is not a function. *)
Fixpoint middlewares (scope : gmap string Value) (args : list Expr)
  : Outcome (list Middleware) :=
  match args with
  | [] => Ok []
  | e :: rest =>
      v ← eval scope e;
      match v with
      | VFunction f => ms ← middlewares scope rest; mret (f :: ms)
      | _ => Throw "Route requires a callback function"
      end
  end.

End JsExpr.

(** ** The alert feed (entry point, WebSocket server) *)

Module AlertFeed.

Section WithPlatform.
Variable P : Platform.t.

(** [getFilteredAlerts(role, userId)] *)
Definition getFilteredAlerts (role userId : string) (db : Store.t)
  : Outcome (list Alert.t) :=
  farmhouses ←
    (if String.eqb role "admin" then
       Mongoose.Farmhouse_find P (Mongoose.q_admin userId) db
     else if String.eqb role "manager" then
       Mongoose.Farmhouse_find P (Mongoose.q_manager userId) db
     else if String.eqb role "assistant" then
       Mongoose.Farmhouse_find P (Mongoose.q_assistants userId) db
     else mret []);
  if Nat.eqb (length farmhouses) 0 then mret []
  else
    let farmhouseLocations :=
      List.filter Js.Boolean (map Farmhouse.location farmhouses) in
    alerts ← Mongoose.Alert_find P db;
    mret (List.filter
            (fun alert => Js.includes farmhouseLocations (Alert.location alert))
            alerts).

(** *** The connection path: [/^\/alerts\/(admin|manager|assistant)\/(\w+)$/] *)

(** [\w] is [[A-Za-z0-9_]]. *)
Definition is_word (c : ascii) : bool :=
  let n := nat_of_ascii c in
  ((48 <=? n) && (n <=? 57)) || ((65 <=? n) && (n <=? 90))
  || (n =? 95) || ((97 <=? n) && (n <=? 122)).

Fixpoint all_word (s : string) : bool :=
  match s with
  | EmptyString => true
  | String c s' => is_word c && all_word s'
  end.

(** [(\w+)$]: the rest of the input, not empty, all word characters. *)
Definition word_to_end (s : string) : bool :=
  negb (String.eqb s "") && all_word s.

(** A literal at the head of the input; the remainder on success. *)
Fixpoint literal (lit s : string) : option string :=
  match lit with
  | EmptyString => Some s
  | String c lit' =>
      match s with
      | EmptyString => None
      | String d s' => if Ascii.eqb c d then literal lit' s' else None
      end
  end.

(** The alternation followed by [\/(\w+)$]; an alternative whose
    continuation fails is abandoned for the next one. *)
Fixpoint alternatives (roles : list string) (s : string) : option (string * string) :=
  match roles with
  | [] => None
  | role :: roles' =>
      match literal role s with
      | Some after =>
          match literal "/" after with
          | Some userId =>
              if word_to_end userId then Some (role, userId)
              else alternatives roles' s
          | None => alternatives roles' s
          end
      | None => alternatives roles' s
      end
  end.

(** [url.match(...)]: the two capture groups, or [None] for [null]. *)
Definition url_match (url : string) : option (string * string) :=
  match literal "/alerts/" url with
  | Some rest => alternatives ["admin"; "manager"; "assistant"] rest
  | None => None
  end.

(** *** The connection handler *)

(** What the server does on the socket.  [WsSend alerts] is
    [ws.send(JSON.stringify(alerts))]: one text frame holding the JSON
    array. *)
Inductive WsEffect : Type :=
| WsClose
| WsSend (alerts : list Alert.t)
| WatchOpened.

Record Session : Type := mkSession { role : string; userId : string }.

(** [sendAlerts] of a session *)
Definition sendAlerts (s : Session) (db : Store.t) : Outcome (list WsEffect) :=
  filteredAlerts ← getFilteredAlerts (role s) (userId s) db;
  mret [WsSend filteredAlerts].

(** [wss.on('connection', ...)]: the effects up to the registration of the
    change listener, and the session left open, if any.  A [Throw] is an
    unhandled rejection: nothing was sent. *)
Definition connection (url : string) (db : Store.t)
  : Outcome (list WsEffect * option Session) :=
  match url_match url with
  | None => mret ([WsClose], None)
  | Some (role, userId) =>
      let s := mkSession role userId in
      sent ← sendAlerts s db;
      mret (sent ++ [WatchOpened], Some s)
  end.

(** [alertChangeStream.on('change', ...)] *)
Definition on_change (s : Session) (operationType : string) (db : Store.t)
  : Outcome (list WsEffect) :=
  if String.eqb operationType "insert" || String.eqb operationType "update"
     || String.eqb operationType "replace" || String.eqb operationType "delete"
  then sendAlerts s db
  else mret [].

End WithPlatform.

(** *** The visibility rule, as the specification words it

    The farmhouses whose role-appropriate ownership field equals the
    user; their non-empty location strings; the alerts whose location
    string is one of those. *)

Inductive Role : Type := Admin | Manager | Assistant.

Definition role_name (r : Role) : string :=
  match r with
  | Admin => "admin"
  | Manager => "manager"
  | Assistant => "assistant"
  end.

Definition owns (r : Role) (userId : string) (fh : Farmhouse.t) : Prop :=
  match r with
  | Admin => Farmhouse.admin fh = Some userId
  | Manager => Farmhouse.manager fh = Some userId
  | Assistant => userId ∈ Farmhouse.assistants fh
  end.

#[global] Instance owns_dec r userId fh : Decision (owns r userId fh).
Proof. destruct r; simpl; apply _. Defined.

Definition owned_locations (r : Role) (userId : string) (db : Store.t) : list string :=
  omap (fun fh =>
          match Farmhouse.location fh with
          | Some l => if decide (l = "") then None else Some l
          | None => None
          end)
       (filter (owns r userId) (Store.farmhouses db)).

Definition located_in (locations : list string) (a : Alert.t) : Prop :=
  exists l, Alert.location a = Some l /\ l ∈ locations.

#[global] Instance located_in_dec locations a : Decision (located_in locations a).
Proof.
  unfold located_in. destruct (Alert.location a) as [l|].
  - destruct (decide (l ∈ locations)).
    + left. eauto.
    + right. intros (l' & [= <-] & ?). done.
  - right. intros (l' & [=] & ?).
Defined.

Definition visible (r : Role) (userId : string) (db : Store.t) : list Alert.t :=
  filter (located_in (owned_locations r userId db)) (Store.alerts db).

(** The paths the specification calls well formed:
    [/alerts/{role}/{userId}] with a non-empty word-character [userId]. *)
Definition well_formed (url : string) : Prop :=
  exists r userId,
    userId <> "" /\ all_word userId = true /\
    url = "/alerts/" +:+ role_name r +:+ "/" +:+ userId.

(** The operation types of the change feed that the specification names. *)
Definition pushed_operations : list string := ["insert"; "update"; "replace"; "delete"].

End AlertFeed.

(** ** [routes/alerts.js] *)

Module AlertsRouter.
Import Express.

Section WithPlatform.
Variable P : Platform.t.
(** [middleware/auth.js] is not among the sources: it is a parameter. *)
Variable auth : Middleware.
(** The role literal of [middleware/superadmin.js]. *)
Variable superadminRole : string.

Definition superadmin : Middleware := Middleware.superadmin superadminRole.

(** [GET /alerts/all-public] *)
Definition get_all_public : Handler := fun req db =>
  Ok (try_catch
        (alerts ← Mongoose.Alert_find P db; mret (json (BAlerts alerts)))
        (fun message => respond 500 (BError message)),
      db).

(** The body shared by [GET /alerts/by-admin/:userId],
    [/by-manager/:userId] and [/by-assistant/:userId], which differ in the
    query and in the message of the 404. *)
Definition by_owner (query : string -> Farmhouse.t -> bool) (notFound : string)
  : Handler := fun req db =>
  Ok (try_catch
        (farmhouses ← Mongoose.Farmhouse_find P (query (param req "userId")) db;
         if Nat.eqb (length farmhouses) 0 then
           mret (respond 404 (BError notFound))
         else
           alerts ← Mongoose.Alert_find P db;
           let farmhouseLocations :=
             List.filter Js.Boolean (map Farmhouse.location farmhouses) in
           let filteredAlerts :=
             List.filter
               (fun alert => Js.includes farmhouseLocations (Alert.location alert))
               alerts in
           mret (json (BAlerts filteredAlerts)))
        (fun message => respond 500 (BError message)),
      db).

Definition get_by_admin : Handler :=
  by_owner Mongoose.q_admin "No farmhouses found for this admin".

Definition get_by_manager : Handler :=
  by_owner Mongoose.q_manager "No farmhouses found for this manager".

Definition get_by_assistant : Handler :=
  by_owner Mongoose.q_assistants "No farmhouses found for this assistant".

(** [POST /alerts]; the [new_alert] broadcast on the socket.io instance is
    not part of the answer. *)
Definition post_handler : Handler := fun req db =>
  Ok (try_catch
        (title ← Mongoose.castString P (body req !! "title");
         category ← Mongoose.castString P (body req !! "category");
         location ← Mongoose.castString P (body req !! "location");
         description ← Mongoose.castString P (body req !! "description");
         let alert :=
           Alert.mk (Platform.newId P db) title category location description in
         '(saved, db') ← Mongoose.Alert_save P alert db;
         mret (respond 201 (BAlert saved), db'))
        (fun message => (respond 400 (BError message), db))).

(** [Alert.findByIdAndUpdate(id, req.body, { new: true })]: the paths of
    the schema present in the body are set. *)
Definition updated (old new : option string) (present : bool) : option string :=
  if present then new else old.

Definition update_handler : Handler := fun req db =>
  Ok (try_catch
        (oid ← Mongoose.castObjectId P (param req "id");
         title ← Mongoose.castString P (body req !! "title");
         category ← Mongoose.castString P (body req !! "category");
         location ← Mongoose.castString P (body req !! "location");
         description ← Mongoose.castString P (body req !! "description");
         _ ← Mongoose.call P Store.Alerts;
         let is_it := fun a => String.eqb (Alert._id a) oid in
         match List.find is_it (Store.alerts db) with
         | None => mret (respond 404 (BError "Alert not found"), db)
         | Some a =>
             let a' :=
               Alert.mk (Alert._id a)
                 (updated (Alert.title a) title (bool_decide (is_Some (body req !! "title"))))
                 (updated (Alert.category a) category
                    (bool_decide (is_Some (body req !! "category"))))
                 (updated (Alert.location a) location
                    (bool_decide (is_Some (body req !! "location"))))
                 (updated (Alert.description a) description
                    (bool_decide (is_Some (body req !! "description")))) in
             mret (json (BAlert a'),
                   Store.set_alerts (Mongoose.replace_first is_it a' (Store.alerts db)) db)
         end)
        (fun message => (respond 400 (BError message), db))).

(** [DELETE /alerts/:id] *)
Definition delete_handler : Handler := fun req db =>
  Ok (try_catch
        ('(alert, db') ← Mongoose.Alert_findByIdAndDelete P (param req "id") db;
         match alert with
         | None => mret (respond 404 (BError "Alert not found"), db')
         | Some _ => mret (json (BMessage "Alert deleted"), db')
         end)
        (fun message => (respond 500 (BError message), db))).

(** [GET /alerts] *)
Definition get_handler : Handler := fun req db =>
  Ok (try_catch
        (u ← user_of req;
         let location :=
           if Js.Boolean (farmhouse u) then farmhouse u else location u in
         if negb (Js.Boolean location) then
           mret (respond 400 (BError "User farmhouse location not set"))
         else
           alerts ← Mongoose.Alert_find_location P (default "" location) db;
           mret (json (BAlerts alerts)))
        (fun message => respond 500 (BError message)),
      db).

(** [GET /alerts/all] *)
Definition get_all_handler : Handler := fun req db =>
  Ok (try_catch
        (alerts ← Mongoose.Alert_find P db; mret (json (BAlerts alerts)))
        (fun message => respond 500 (BError message)),
      db).

(** The registrations. *)
Definition all_public := route [] get_all_public.
Definition by_admin := route [] get_by_admin.
Definition by_manager := route [] get_by_manager.
Definition by_assistant := route [] get_by_assistant.
Definition post := route [auth; superadmin] post_handler.
Definition put := route [auth; superadmin] update_handler.
Definition patch := route [auth; superadmin] update_handler.
Definition delete := route [auth; superadmin] delete_handler.
Definition get := route [auth] get_handler.
Definition get_all := route [auth; superadmin] get_all_handler.

End WithPlatform.

End AlertsRouter.

(** ** [routes/farmhouse.js] *)

Module FarmhouseRouter.
Import Express.

Section WithPlatform.
Variable P : Platform.t.
(** [middleware/auth.js] and [middleware/admin.js] are not among the
    sources: they are parameters. *)
Variable auth : Middleware.
Variable admin : Middleware.

(** The scope of the module: its five [const] declarations.  There is no
    declaration of [superadmin]. *)
Definition scope : gmap string JsExpr.Value :=
  <["express" := JsExpr.VObject]>
  (<["router" := JsExpr.VObject]>
  (<["Farmhouse" := JsExpr.VObject]>
  (<["auth" := JsExpr.VFunction auth]>
  (<["admin" := JsExpr.VFunction admin]> ∅)))).

(** [POST /farmhouse] *)
Definition post_handler : Handler := fun req db =>
  Ok (try_catch
        (u ← user_of req;
         name ← Mongoose.castString P (body req !! "Name");
         manager ← Mongoose.castString P (body req !! "manager_id");
         assistants ← Mongoose.castStringArray P (body req !! "assistants");
         location ← Mongoose.castString P (body req !! "location");
         let farmhouse :=
           Farmhouse.mk (Platform.newId P db) None name manager (Some (id u))
             assistants location in
         '(saved, db') ← Mongoose.Farmhouse_save P farmhouse db;
         mret (respond 201 (BFarmhouse saved), db'))
        (fun message => (respond 400 (BError message), db))).

(** [GET /farmhouse] *)
Definition get_handler : Handler := fun req db =>
  Ok (try_catch
        (farmhouses ← Mongoose.Farmhouse_find P (fun _ => true) db;
         mret (json (BFarmhouses farmhouses)))
        (fun message => respond 500 (BError message)),
      db).

(** The body shared by [GET /farmhouse/admin], [/manager] and
    [/assistant]: the role test stands before the [try]. *)
Definition by_role (required denied : string)
  (query : string -> Farmhouse.t -> bool) : Handler := fun req db =>
  u ← user_of req;
  if negb (String.eqb (role u) required) then
    mret (respond 403 (BError denied), db)
  else
    mret (try_catch
            (farmhouses ← Mongoose.Farmhouse_find P (query (id u)) db;
             mret (json (BFarmhouses farmhouses)))
            (fun message => respond 500 (BError message)),
          db).

Definition get_admin_handler : Handler :=
  by_role "admin" "Access denied. Admins only." Mongoose.q_admin.

Definition get_manager_handler : Handler :=
  by_role "manager" "Access denied. Managers only." Mongoose.q_manager.

Definition get_assistant_handler : Handler :=
  by_role "assistant" "Access denied. Assistants only." Mongoose.q_assistants.

(** [DELETE /farmhouse/:id] *)
Definition delete_handler : Handler := fun req db =>
  Ok (try_catch
        (farmhouseToDelete ← Mongoose.Farmhouse_findById P (param req "id") db;
         match farmhouseToDelete with
         | None => mret (respond 404 (BError "Farmhouse not found"), db)
         | Some fh =>
             owner ← match Farmhouse.admin fh with
                     | Some a => Ok a
                     | None => Throw "Cannot read properties of undefined"
                     end;
             u ← user_of req;
             if negb (String.eqb owner (id u)) then
               mret (respond 403
                       (BError "Access denied. You are not the admin of this farmhouse."),
                     db)
             else
               '(_, db') ← Mongoose.Farmhouse_findByIdAndDelete P (param req "id") db;
               mret (json (BMessage "Farmhouse deleted"), db')
         end)
        (fun message => (respond 500 (BError message), db))).

(** The registrations.  The second argument of the [DELETE] registration
    is the expression [admin || superadmin]. *)
Definition post := route [auth; admin] post_handler.
Definition get := route [] get_handler.
Definition get_admin := route [auth] get_admin_handler.
Definition get_manager := route [auth] get_manager_handler.
Definition get_assistant := route [auth] get_assistant_handler.

Definition delete_guard : JsExpr.Expr :=
  JsExpr.Or (JsExpr.Ident "admin") (JsExpr.Ident "superadmin").

Definition delete : Outcome (Request -> Store.t -> Outcome (Response * Store.t)) :=
  chain ← JsExpr.middlewares scope [JsExpr.Ident "auth"; delete_guard];
  mret (route chain delete_handler).

End WithPlatform.

End FarmhouseRouter.

(** ** The CSV helper *)

Module Csv.

(** A parsed row: an object whose values are the strings of the cells. *)
Abbreviation Row := (gmap string string).

(** Modelled from the spec: [utils/csvHelper.js] is not among the sources.
    The spec describes it as a "generic buffer→row-array parser and
    row-array→buffer serializer used identically by every resource's
    import/export endpoints", with a fixed column order per resource, such
    that field values "round-trip as strings" and numeric and date fields
    "degrade to their string representations".  [cell] is that string
    representation; [importCSV] returns the valid and the invalid rows. *)
Record Helper : Type := mkHelper {
  Buffer : Type;
  cell : option Js.JVal -> string;
  exportCSV : list Doc -> list string -> Buffer;
  importCSV : Buffer -> list string -> Outcome (list Row * list Row);
  cell_string : forall s, cell (Some (Js.JStr s)) = s;
  round_trip : forall data fields,
    importCSV (exportCSV data fields) fields
    = Ok (map (fun d : Doc =>
                 list_to_map (map (fun f => (f, cell (d !! f))) fields) : Row)
              data, [])
}.

(** The row that a document becomes: one cell for each column. *)
Definition row_of (H : Helper) (fields : list string) (d : Doc) : Row :=
  list_to_map (map (fun f => (f, cell H (d !! f))) fields).

(** What an export answers: the attachment, or the answer of the [catch]. *)
Inductive Export (B : Type) : Type :=
| Attachment (filename : string) (csv : B)
| Failed (res : Response).
Arguments Attachment {B} filename csv.
Arguments Failed {B} res.

End Csv.

(** ** [routes/animals.js], [routes/breeding.js], [routes/vaccinations.js],
       [routes/healthRecords.js] *)

Module CrudRouters.
Import Express Store.

Section WithPlatform.
Variable P : Platform.t.

(** [{ f1, ..., fn }] built from variables destructured from the body: a
    property whose variable is [undefined] is not stored. *)
Definition pick (fields : list string) (b : Doc) : Doc :=
  list_to_map (omap (fun f => (fun v => (f, v)) <$> b !! f) fields).

Definition falsy (b : Doc) (f : string) : bool := negb (Js.truthy (b !! f)).

Definition undefined (b : Doc) (f : string) : bool := Js.is_undefined (b !! f).

(** [isNaN(v) || v <= 0] and [isNaN(v) || v < 0] *)
Definition not_positive (v : option Js.JVal) : bool :=
  Mongoose.isNaN P v || Mongoose.le_zero P v.

Definition not_natural (v : option Js.JVal) : bool :=
  Mongoose.isNaN P v || Mongoose.lt_zero P v.

Definition is_string (v : Js.JVal) : bool :=
  match v with Js.JStr _ => true | _ => false end.

(** The [try] block shared by the four [POST /] handlers. *)
Definition create (c : DocCollection) (message : string) (doc : Doc) (db : Store.t)
  : Outcome (Response * Store.t) :=
  Ok (try_catch
        ('(saved, db') ← Mongoose.save P c doc db;
         mret (respond 201 (BDoc message saved), db'))
        (fun err => (respond 400 (BError err), db))).

Definition bad_request (error : string) (db : Store.t) : Outcome (Response * Store.t) :=
  Ok (respond 400 (BError error), db).

(** *** [POST /animals] *)

Definition animal_fields : list string :=
  ["tagId"; "breed"; "gender"; "dob"; "weight"; "condition"; "status";
   "farmhouse"; "sireId"; "damId"; "acquisitionType"; "acquisitionDate";
   "origin"; "images"; "notes"].

Definition images_ok (images : option Js.JVal) : bool :=
  match images with
  | Some (Js.JArr items) => forallb is_string items
  | _ => false
  end.

Definition post_animal : Handler := fun req db =>
  let b := body req in
  if falsy b "tagId" || falsy b "breed" || falsy b "gender" || falsy b "dob"
     || falsy b "weight" || falsy b "condition" || falsy b "status"
     || falsy b "farmhouse" || falsy b "acquisitionType"
     || falsy b "acquisitionDate"
  then bad_request "Missing required fields" db
  else if negb (match b !! "gender" with
                | Some (Js.JStr g) => String.eqb g "Male" || String.eqb g "Female"
                | _ => false
                end)
  then bad_request "Invalid gender" db
  else if not_positive (b !! "weight")
  then bad_request "Invalid weight" db
  else if Js.truthy (b !! "images") && negb (images_ok (b !! "images"))
  then bad_request "Images must be an array of strings" db
  else create Animals "Animal created successfully" (pick animal_fields b) db.

(** *** [POST /breeding] *)

Definition breeding_fields : list string :=
  ["sireTagId"; "damTagId"; "breedingDate"; "breedingMethod";
   "expectedDelivery"; "actualDelivery"; "numberOfOffspring"; "status";
   "cost"; "performedBy"; "notes"].

Definition post_breeding : Handler := fun req db =>
  let b := body req in
  if falsy b "sireTagId" || falsy b "damTagId" || falsy b "breedingDate"
     || falsy b "breedingMethod" || falsy b "expectedDelivery"
     || falsy b "actualDelivery" || undefined b "numberOfOffspring"
     || falsy b "status" || undefined b "cost" || falsy b "performedBy"
     || falsy b "notes"
  then bad_request "All fields are required" db
  else if not_natural (b !! "numberOfOffspring")
  then bad_request "Invalid numberOfOffspring" db
  else if not_natural (b !! "cost")
  then bad_request "Invalid cost" db
  else create Breedings "Breeding record created successfully"
         (pick breeding_fields b) db.

(** *** [POST /vaccinations] *)

Definition vaccination_fields : list string :=
  ["animalTagId"; "vaccineName"; "manufacturer"; "batchNumber";
   "vaccinationType"; "dosage"; "administrationRoute"; "administeredBy";
   "treatmentDate"; "expiryDate"; "nextDueDate"; "cost"; "status";
   "sideEffects"; "notes"].

Definition post_vaccination : Handler := fun req db =>
  let b := body req in
  if falsy b "animalTagId" || falsy b "vaccineName" || falsy b "manufacturer"
     || falsy b "batchNumber" || falsy b "vaccinationType" || falsy b "dosage"
     || falsy b "administrationRoute" || falsy b "administeredBy"
     || falsy b "treatmentDate" || falsy b "expiryDate" || falsy b "nextDueDate"
     || undefined b "cost" || falsy b "status" || falsy b "sideEffects"
     || falsy b "notes"
  then bad_request "All fields are required" db
  else if not_natural (b !! "cost")
  then bad_request "Invalid cost" db
  else create Vaccinations "Vaccination record created successfully"
         (pick vaccination_fields b) db.

(** *** [POST /health-records] *)

Definition health_fields : list string :=
  ["animalTagId"; "healthIssue"; "symptoms"; "diagnosis"; "treatment";
   "veterinarian"; "treatmentDate"; "followUpDate"; "severity"; "cost";
   "status"; "notes"].

Definition post_health : Handler := fun req db =>
  let b := body req in
  if falsy b "animalTagId" || falsy b "healthIssue" || falsy b "symptoms"
     || falsy b "diagnosis" || falsy b "treatment" || falsy b "veterinarian"
     || falsy b "treatmentDate" || falsy b "followUpDate" || falsy b "severity"
     || undefined b "cost" || falsy b "status" || falsy b "notes"
  then bad_request "All fields are required" db
  else if not_natural (b !! "cost")
  then bad_request "Invalid cost" db
  else create HealthRecords "Health record created successfully"
         (pick health_fields b) db.

(** *** [DELETE /:id], the same in the four routers but for the messages *)

Definition not_found (c : DocCollection) : string :=
  match c with
  | Animals => "Animal not found"
  | Breedings => "Breeding record not found"
  | Vaccinations => "Vaccination not found"
  | HealthRecords => "Health record not found"
  end.

Definition deleted (c : DocCollection) : string :=
  match c with
  | Animals => "Animal deleted successfully"
  | Breedings => "Breeding record deleted successfully"
  | Vaccinations => "Vaccination deleted successfully"
  | HealthRecords => "Health record deleted successfully"
  end.

Definition delete (c : DocCollection) : Handler := fun req db =>
  Ok (try_catch
        ('(found, db') ← Mongoose.findByIdAndDelete P c (param req "id") db;
         match found with
         | None => mret (respond 404 (BError (not_found c)), db')
         | Some d => mret (json (BDoc (deleted c) d), db')
         end)
        (fun err => (respond 400 (BError err), db))).

(** *** [GET /export-csv] and [POST /import-csv] *)

Definition fields (c : DocCollection) : list string :=
  match c with
  | Animals => animal_fields
  | Breedings => breeding_fields
  | Vaccinations => vaccination_fields
  | HealthRecords => health_fields
  end.

Definition filename (c : DocCollection) : string :=
  match c with
  | Animals => "animals.csv"
  | Breedings => "breeding.csv"
  | Vaccinations => "vaccinations.csv"
  | HealthRecords => "healthRecords.csv"
  end.

Definition imported (c : DocCollection) : string :=
  match c with
  | Animals => "Animals imported successfully"
  | Breedings => "Breeding records imported successfully"
  | Vaccinations => "Vaccinations imported successfully"
  | HealthRecords => "Health records imported successfully"
  end.

(** The string of an array element inside [join]: [null] gives the empty
    string. *)
Definition item_text (v : Js.JVal) : string :=
  match v with
  | Js.JStr s => s
  | Js.JNull => ""
  | other => default "" (Platform.castToString P other)
  end.

(** [Array.isArray(a.images) ? a.images.join(';') : ''] *)
Definition export_images (images : option Js.JVal) : string :=
  match images with
  | Some (Js.JArr items) => Js.join ";" (map item_text items)
  | _ => ""
  end.

(** [row.images ? row.images.split(';') : []] *)
Definition import_images (images : option string) : list string :=
  if Js.Boolean images then Js.split ";" (default "" images) else [].

(** The rows handed to the serializer: the animal router replaces
    [images] by the joined string, the others pass the documents on. *)
Definition export_data (c : DocCollection) (ds : list Doc) : list Doc :=
  match c with
  | Animals =>
      map (fun a : Doc => <["images" := Js.JStr (export_images (a !! "images"))]> a) ds
  | _ => ds
  end.

(** The documents handed to [insertMany]: the animal router replaces
    [images] by the split array. *)
Definition as_doc (row : Csv.Row) : Doc := Js.JStr <$> row.

Definition processed (c : DocCollection) (valid : list Csv.Row) : list Doc :=
  match c with
  | Animals =>
      map (fun row : Csv.Row =>
             <["images" := Js.JArr (map Js.JStr (import_images (row !! "images")))]>
               (as_doc row))
          valid
  | _ => map as_doc valid
  end.

Section WithHelper.
Variable H : Csv.Helper.

Definition export_csv (c : DocCollection) (db : Store.t) : Csv.Export (Csv.Buffer H) :=
  try_catch
    (ds ← Mongoose.find_all P c db;
     mret (Csv.Attachment (filename c) (Csv.exportCSV H (export_data c ds) (fields c))))
    (fun err => Csv.Failed (respond 500 (BError err))).

(** The part of the import up to [insertMany]: the processed rows and the
    invalid ones. *)
Definition import_rows (c : DocCollection) (buffer : Csv.Buffer H)
  : Outcome (list Doc * list Csv.Row) :=
  '(valid, invalid) ← Csv.importCSV H buffer (fields c);
  mret (processed c valid, invalid).

Definition import_csv (c : DocCollection) (file : option (Csv.Buffer H)) (db : Store.t)
  : Response * Store.t :=
  match file with
  | None => (respond 400 (BError "CSV file is required"), db)
  | Some buffer =>
      try_catch
        ('(rows, invalid) ← import_rows c buffer;
         if Nat.eqb (length rows) 0 then
           mret (respond 400 (BInvalid "No valid rows found in CSV" invalid), db)
         else
           '(inserted, db') ← Mongoose.insertMany P c rows db;
           mret (respond 200 (BImported (imported c) (length inserted) invalid), db'))
        (fun err => (respond 400 (BError err), db))
  end.

End WithHelper.

End WithPlatform.

End CrudRouters.

(** ** [routes/farmhouseUsers.js] *)

Module FarmhouseUsersRouter.
Import Express.

Section WithPlatform.
Variable P : Platform.t.
Variable auth : Middleware.
Variable admin : Middleware.

(** The two lists of a record. *)
Inductive Kind : Type := AssistantK | ManagerK.

Definition members (k : Kind) (d : FarmhouseUsers.t) : list string :=
  match k with
  | AssistantK => FarmhouseUsers.assistants d
  | ManagerK => FarmhouseUsers.managers d
  end.

Definition with_members (k : Kind) (l : list string) (d : FarmhouseUsers.t)
  : FarmhouseUsers.t :=
  match k with
  | AssistantK =>
      FarmhouseUsers.mk (FarmhouseUsers.adminId d) (FarmhouseUsers.managers d) l
  | ManagerK =>
      FarmhouseUsers.mk (FarmhouseUsers.adminId d) l (FarmhouseUsers.assistants d)
  end.

(** The property of the body, the route parameter and the words of the
    messages of each pair of routes. *)
Definition field (k : Kind) : string :=
  match k with AssistantK => "assistantId" | ManagerK => "managerId" end.

Definition label (k : Kind) : string :=
  match k with AssistantK => "AssistantId " | ManagerK => "ManagerId " end.

Definition msg_created (k : Kind) (adminId member : string) : string :=
  "FarmhouseUsers created for adminId " +:+ adminId +:+ " and "
  +:+ field k +:+ " " +:+ member +:+ " added.".

Definition msg_added (k : Kind) (adminId member : string) : string :=
  label k +:+ member +:+ " added to FarmhouseUsers of adminId " +:+ adminId +:+ ".".

Definition msg_exists (k : Kind) (adminId member : string) : string :=
  label k +:+ member +:+ " already exists in FarmhouseUsers of adminId "
  +:+ adminId +:+ ".".

Definition msg_removed (k : Kind) (adminId member : string) : string :=
  label k +:+ member +:+ " removed from FarmhouseUsers of adminId " +:+ adminId +:+ ".".

Definition msg_missing (k : Kind) (adminId member : string) : string :=
  label k +:+ member +:+ " not found in FarmhouseUsers of adminId " +:+ adminId +:+ ".".

Definition msg_no_record (adminId : string) : string :=
  "FarmhouseUsers not found for adminId " +:+ adminId +:+ ".".

(** [doc.populate('adminId managers assistants')] reads the users; the
    answer is modelled with the identifiers it replaces. *)
Definition populate : Outcome unit := Mongoose.call P Store.Users.

(** [doc.assistants.includes(assistantId)] on the value of the body: the
    identifiers of the array are compared with a string. *)
Definition included (l : list string) (v : option Js.JVal) : bool :=
  match v with
  | Some (Js.JStr s) => Js.includes_id l s
  | _ => false
  end.

(** [POST /farmhouse-users/:adminId/assistant] and [.../manager] *)
Definition add (k : Kind) : Handler := fun req db =>
  let adminId := param req "adminId" in
  let memberId := body req !! field k in
  if negb (Js.truthy memberId) then
    Ok (respond 400 (BError (field k +:+ " required")), db)
  else
    Ok (match Mongoose.FarmhouseUsers_findOne P adminId db with
        | Throw err => (respond 500 (BError err), db)
        | Ok found =>
            (* the writes made before a later call throws stay *)
            let step : Outcome (string * FarmhouseUsers.t * Store.t) :=
              match found with
              | None =>
                  member ← Mongoose.castId P memberId;
                  let doc := with_members k [member] (FarmhouseUsers.mk adminId [] []) in
                  db' ← Mongoose.FarmhouseUsers_save P true doc db;
                  mret (msg_created k adminId (Mongoose.text P memberId), doc, db')
              | Some doc =>
                  if negb (included (members k doc) memberId) then
                    member ← Mongoose.castId P memberId;
                    let doc' := with_members k (members k doc ++ [member]) doc in
                    db' ← Mongoose.FarmhouseUsers_save P false doc' db;
                    mret (msg_added k adminId (Mongoose.text P memberId), doc', db')
                  else mret (msg_exists k adminId (Mongoose.text P memberId), doc, db)
              end in
            match step with
            | Throw err => (respond 500 (BError err), db)
            | Ok (message, doc, db') =>
                match populate with
                | Throw err => (respond 500 (BError err), db')
                | Ok _ => (json (BFarmhouseUser message (Some doc)), db')
                end
            end
        end).

(** [DELETE /farmhouse-users/:adminId/assistant/:assistantId] and
    [.../manager/:managerId] *)
Definition remove (k : Kind) : Handler := fun req db =>
  let adminId := param req "adminId" in
  let member := param req (field k) in
  Ok (match Mongoose.FarmhouseUsers_findOne P adminId db with
      | Throw err => (respond 500 (BError err), db)
      | Ok None => (respond 404 (BMessage (msg_no_record adminId)), db)
      | Ok (Some doc) =>
          match Js.indexOf (members k doc) member with
          | Some idx =>
              let doc' := with_members k (Js.splice1 (members k doc) idx) doc in
              match Mongoose.FarmhouseUsers_save P false doc' db with
              | Throw err => (respond 500 (BError err), db)
              | Ok db' =>
                  match populate with
                  | Throw err => (respond 500 (BError err), db')
                  | Ok _ =>
                      (json (BFarmhouseUser (msg_removed k adminId member) (Some doc')), db')
                  end
              end
          | None =>
              (respond 404 (BFarmhouseUser (msg_missing k adminId member) (Some doc)), db)
          end
      end).

Definition post_assistant := route [auth; admin] (add AssistantK).
Definition post_manager := route [auth; admin] (add ManagerK).
Definition delete_assistant := route [auth; admin] (remove AssistantK).
Definition delete_manager := route [auth; admin] (remove ManagerK).

End WithPlatform.

(** The two invariants of the collection: one record for each admin,
    no identifier twice in a list. *)
Definition one_record_per_admin (db : Store.t) : Prop :=
  NoDup (map FarmhouseUsers.adminId (Store.farmhouseUsers db)).

Definition no_duplicate_members (db : Store.t) : Prop :=
  Forall (fun d => NoDup (FarmhouseUsers.managers d)
                   /\ NoDup (FarmhouseUsers.assistants d))
         (Store.farmhouseUsers db).

Definition invariant (db : Store.t) : Prop :=
  one_record_per_admin db /\ no_duplicate_members db.

End FarmhouseUsersRouter.

(** ** The resources with a create route *)

Module Resources.

Inductive t : Type := Animal | Breeding | Vaccination | HealthRecord | Farmhouse.

(** The fields a create request must carry: those that the documentation
    of the route lists under [required]; the farmhouse route lists none,
    and its schema requires [name], which the handler reads from [Name]. *)
Definition required (r : t) : list string :=
  match r with
  | Animal =>
      ["tagId"; "breed"; "gender"; "dob"; "weight"; "condition"; "status";
       "farmhouse"; "acquisitionType"; "acquisitionDate"]
  | Breeding => CrudRouters.breeding_fields
  | Vaccination => CrudRouters.vaccination_fields
  | HealthRecord => CrudRouters.health_fields
  | Farmhouse => ["Name"]
  end.

(** The handler of [POST /] of each router. *)
Definition create (P : Platform.t) (r : t) : Express.Handler :=
  match r with
  | Animal => CrudRouters.post_animal P
  | Breeding => CrudRouters.post_breeding P
  | Vaccination => CrudRouters.post_vaccination P
  | HealthRecord => CrudRouters.post_health P
  | Farmhouse => FarmhouseRouter.post_handler P
  end.

End Resources.

(** ** The CSV round trip, as the specification words it *)

Module CsvSpec.

(** The character [c] occurs in [s]. *)
Fixpoint occurs (c : ascii) (s : string) : bool :=
  match s with
  | EmptyString => false
  | String d s' => Ascii.eqb d c || occurs c s'
  end.

(** The number of occurrences of [c] in [s]. *)
Fixpoint count (c : ascii) (s : string) : nat :=
  match s with
  | EmptyString => 0
  | String d s' => (if Ascii.eqb d c then 1 else 0) + count c s'
  end.

(** The arrays of image names that survive being joined on [;] and split
    again: no name holds a semicolon, and the array is not [[""]]. *)
Definition joinable (images : list string) : Prop :=
  Forall (fun s => occurs ";" s = false) images /\ images <> [""].

(** A document read back from its row: each column holds the string of
    its cell. *)
Definition reread (H : Csv.Helper) (fields : list string) (d : Doc) : Doc :=
  CrudRouters.as_doc (Csv.row_of H fields d).

(** The image names of an animal whose [images] is an array of strings. *)
Definition images_of (a : Doc) : option (list string) :=
  match a !! "images" with
  | Some (Js.JArr items) =>
      if forallb CrudRouters.is_string items
      then Some (map (fun v => match v with Js.JStr s => s | _ => "" end) items)
      else None
  | _ => None
  end.

(** An animal read back from its row, [images] being the array it was. *)
Definition reread_animal (H : Csv.Helper) (a : Doc) : Doc :=
  <["images" := Js.JArr (map Js.JStr (default [] (images_of a)))]>
    (reread H CrudRouters.animal_fields a).

(** The animals whose images survive the file. *)
Definition portable (a : Doc) : Prop :=
  exists images, images_of a = Some images /\ joinable images.

End CsvSpec.

(** ** The three by-owner routes of the alert router, by role *)

Module OwnerRoutes.
Import AlertFeed.

(** The query of [GET /alerts/by-{role}/:userId]. *)
Definition query_of (r : Role) : string -> Farmhouse.t -> bool :=
  match r with
  | Admin => Mongoose.q_admin
  | Manager => Mongoose.q_manager
  | Assistant => Mongoose.q_assistants
  end.

(** The route that serves the alerts of a user in a role. *)
Definition owner_route (P : Platform.t) (r : Role) : Express.Handler :=
  match r with
  | Admin => AlertsRouter.by_admin P
  | Manager => AlertsRouter.by_manager P
  | Assistant => AlertsRouter.by_assistant P
  end.

(** The message of its 404. *)
Definition owner_not_found (r : Role) : string :=
  match r with
  | Admin => "No farmhouses found for this admin"
  | Manager => "No farmhouses found for this manager"
  | Assistant => "No farmhouses found for this assistant"
  end.

(** The handler of [GET /farmhouse/{role}] and the message of its 403. *)
Definition farmhouse_route (P : Platform.t) (r : Role) : Express.Handler :=
  match r with
  | Admin => FarmhouseRouter.get_admin_handler P
  | Manager => FarmhouseRouter.get_manager_handler P
  | Assistant => FarmhouseRouter.get_assistant_handler P
  end.

Definition farmhouse_denied (r : Role) : string :=
  match r with
  | Admin => "Access denied. Admins only."
  | Manager => "Access denied. Managers only."
  | Assistant => "Access denied. Assistants only."
  end.

End OwnerRoutes.

(** ** What a farmhouse-users request may write *)

Module FarmhouseUsersSpec.
Import FarmhouseUsersRouter.

(** The list that a request on the other list leaves alone. *)
Definition other (k : Kind) : Kind :=
  match k with AssistantK => ManagerK | ManagerK => AssistantK end.

(** The record of an admin. *)
Definition is_record_of (adminId : string) (d : FarmhouseUsers.t) : bool :=
  String.eqb (FarmhouseUsers.adminId d) adminId.

(** The three ways a request on the list [k] of [adminId] leaves the
    store: as it was; with the first record of that admin holding another
    list [k]; or, when the admin had no record, with a new record at the
    end that holds a list [k] only. *)
Definition written (adminId : string) (k : Kind) (db db' : Store.t) : Prop :=
  db' = db
  \/ (exists doc l,
        List.find (is_record_of adminId) (Store.farmhouseUsers db) = Some doc
        /\ db' = Store.set_farmhouseUsers
                   (Mongoose.replace_first (is_record_of adminId)
                      (with_members k l doc) (Store.farmhouseUsers db)) db)
  \/ (exists l,
        List.find (is_record_of adminId) (Store.farmhouseUsers db) = None
        /\ db' = Store.set_farmhouseUsers
                   (Store.farmhouseUsers db
                    ++ [with_members k l (FarmhouseUsers.mk adminId [] [])]) db).

End FarmhouseUsersSpec.

(** ** The CRUD routers, by collection *)

Module CrudSpec.
Import Store.

(** The handler of [POST /] of the router of a collection, and the
    message of its 201. *)
Definition post_of (P : Platform.t) (c : DocCollection) : Express.Handler :=
  match c with
  | Animals => CrudRouters.post_animal P
  | Breedings => CrudRouters.post_breeding P
  | Vaccinations => CrudRouters.post_vaccination P
  | HealthRecords => CrudRouters.post_health P
  end.

Definition created (c : DocCollection) : string :=
  match c with
  | Animals => "Animal created successfully"
  | Breedings => "Breeding record created successfully"
  | Vaccinations => "Vaccination record created successfully"
  | HealthRecords => "Health record created successfully"
  end.

End CrudSpec.

(** ** The paginated listings: [GET /] of the four CRUD routers *)

Module Listing.
Import Store.

(** The body of the answer: [{ <resource>, total, page, totalPages }]. *)
Record Page : Type := mkPage {
  items : list Doc;
  total : nat;
  page : Z;
  totalPages : Z
}.

Inductive Answer : Type :=
| Listed (p : Page)
| Refused (res : Response).

(** [parseInt(q) || fallback]: the fallback replaces [NaN] and [0]. *)
Definition or_default (parsed : option Z) (fallback : Z) : Z :=
  match parsed with
  | Some n => if Z.eqb n 0 then fallback else n
  | None => fallback
  end.

(** [Math.ceil(total / limit)] for a count and a non-zero integer (the
    quotient of two integers below 2^53 is rounded to an integer only
    when it is one). *)
Definition ceil_div (total : nat) (limit : Z) : Z := - ((- Z.of_nat total) / limit).

Section WithPlatform.
Variable P : Platform.t.
(** [parseInt] of a query parameter, whose grammar is the engine's;
    [None] is [NaN]. *)
Variable parseInt : option string -> option Z.
(** The documents of a collection ordered by [createdAt], newest first. *)
Variable newest_first : list Doc -> list Doc.

(** [Model.find().skip(s).limit(l).sort({ createdAt: -1 })]: the sort
    comes first whatever the order of the calls; the server refuses a
    negative skip, takes a negative limit for its absolute value and a
    zero limit for none. *)
Definition find_page (c : DocCollection) (skip limit : Z) (db : Store.t)
  : Outcome (list Doc) :=
  _ ← Mongoose.call P (Docs c);
  if Z.ltb skip 0 then Throw "Skip value must be non-negative"
  else
    let rest := drop (Z.to_nat skip) (newest_first (docs db c)) in
    mret (if Z.eqb limit 0 then rest else take (Z.to_nat (Z.abs limit)) rest).

(** [Model.countDocuments()] *)
Definition countDocuments (c : DocCollection) (db : Store.t) : Outcome nat :=
  _ ← Mongoose.call P (Docs c); mret (length (docs db c)).

(** The [try] block of [GET /] once [page] and [limit] are read. *)
Definition answer (c : DocCollection) (page limit : Z) (db : Store.t) : Answer :=
  try_catch
    (found ← find_page c ((page - 1) * limit) limit db;
     total ← countDocuments c db;
     mret (Listed (mkPage found total page (ceil_div total limit))))
    (fun err => Refused (respond 500 (BError err))).

(** [GET /?page=..&limit=..] *)
Definition list (c : DocCollection) (page_q limit_q : option string) (db : Store.t)
  : Answer :=
  answer c (or_default (parseInt page_q) 1) (or_default (parseInt limit_q) 10) db.

End WithPlatform.

(** The documents an answer lists, none for a refusal. *)
Definition items_of (a : Answer) : Datatypes.list Doc :=
  match a with
  | Listed p => items p
  | Refused _ => []
  end.

(** The integers a double holds exactly, on which the arithmetic of the
    handler is that of [Z]. *)
Definition exact (n : Z) : Prop := (Z.abs n < 2 ^ 53)%Z.

End Listing.

(** ** The dashboard: age groups, breeding outcomes, suggestions *)

Module Dashboard.

(** What the handler reads of a [Date]: [getFullYear()] and [getMonth()]. *)
Record Date : Type := mkDate { year : Z; month : Z }.

(** [getAgeGroup(dob)], [now] being [new Date()]. *)
Definition getAgeGroup (now dob : Date) : string :=
  let ageMonths := ((year now - year dob) * 12 + (month now - month dob))%Z in
  if Z.ltb ageMonths 6 then "0-6 months"
  else if Z.ltb ageMonths 12 then "6-12 months"
  else if Z.ltb ageMonths 24 then "1-2 years"
  else if Z.ltb ageMonths 48 then "2-4 years"
  else "4+ years".

(** The paths of an animal and of a breeding record that the handler
    reads; [None] is a path that is unset or [null]. *)
Record Animal : Type := mkAnimal {
  tagId : option string;
  gender : option string;
  dob : option Date;
  condition : option string
}.

Record Breeding : Type := mkBreeding { status : option string }.

(** The literal [ageGroups] starts from. *)
Definition age_labels : list string :=
  ["0-6 months"; "6-12 months"; "1-2 years"; "2-4 years"; "4+ years"].

Definition ageGroups0 : list (string * nat) := map (fun l => (l, 0)) age_labels.

(** [o[k] = (o[k] || 0) + 1] on an object whose own properties are [o],
    in insertion order. *)
Fixpoint bump (k : string) (o : list (string * nat)) : list (string * nat) :=
  match o with
  | [] => [(k, 1)]
  | (k', n) :: rest =>
      if String.eqb k k' then (k', n + 1) :: rest else (k', n) :: bump k rest
  end.

(** The age part of the [forEach] over the animals, followed by
    [Object.entries(ageGroups)]; reading the date of an animal without
    [dob] throws. *)
Fixpoint count_ages (now : Date) (animals : list Animal) (groups : list (string * nat))
  : Outcome (list (string * nat)) :=
  match animals with
  | [] => Ok groups
  | a :: rest =>
      match dob a with
      | None => Throw "Cannot read properties of null (reading 'getFullYear')"
      | Some d => count_ages now rest (bump (getAgeGroup now d) groups)
      end
  end.

Definition ageDistribution (now : Date) (animals : list Animal)
  : Outcome (list (string * nat)) :=
  count_ages now animals ageGroups0.

Section WithEngine.
(** [String.prototype.toLowerCase] *)
Variable toLowerCase : string -> string.

(** [s && s.toLowerCase() === word] *)
Definition reads (s : option string) (word : string) : bool :=
  match s with
  | Some text => negb (String.eqb text "") && String.eqb (toLowerCase text) word
  | None => false
  end.

(** The counters [successful], [failed] and [inProgress] after the
    [forEach] over the breeding records. *)
Fixpoint count_outcomes (breedings : list Breeding) (counters : nat * nat * nat)
  : nat * nat * nat :=
  match breedings with
  | [] => counters
  | b :: rest =>
      let '(successful, failed, inProgress) := counters in
      count_outcomes rest
        (if reads (status b) "successful" then (successful + 1, failed, inProgress)
         else if reads (status b) "failed" then (successful, failed + 1, inProgress)
         else (successful, failed, inProgress + 1))
  end.

Definition outcomes (breedings : list Breeding) : nat * nat * nat :=
  count_outcomes breedings (0, 0, 0).

(** The tests of the two [filter] calls on an animal born on [d], and the
    reason given for a culling. *)
Definition cull_test (now : Date) (a : Animal) (d : Date) : bool :=
  let ageYears := (year now - year d)%Z in
  Z.leb 6 ageYears || reads (condition a) "poor".

Definition breed_test (now : Date) (a : Animal) (d : Date) : bool :=
  let ageYears := (year now - year d)%Z in
  Z.leb 1 ageYears && Z.leb ageYears 4 && reads (condition a) "good"
  && Js.same_value (gender a) (Some "Female").

Definition cull_reason (a : Animal) : string :=
  if reads (condition a) "poor" then "Poor condition" else "Age 6+ years".

(** [animals.filter(test).map(a => ({ tagId, reason }))] *)
Fixpoint suggest (test : Animal -> Date -> bool) (reason : Animal -> string)
  (animals : list Animal) : Outcome (list (option string * string)) :=
  match animals with
  | [] => Ok []
  | a :: rest =>
      match dob a with
      | None => Throw "Cannot read properties of null (reading 'getFullYear')"
      | Some d =>
          picked ← suggest test reason rest;
          mret (if test a d then (tagId a, reason a) :: picked else picked)
      end
  end.

Definition cullSuggestions (now : Date) (animals : list Animal) :=
  suggest (cull_test now) cull_reason animals.

Definition breedSuggestions (now : Date) (animals : list Animal) :=
  suggest (breed_test now) (fun _ => "Optimal age, good condition") animals.

End WithEngine.

End Dashboard.

(** ** Sample data *)

Module Sample.

(** A platform whose driver never fails and whose schemas accept every
    document. *)
Definition platform : Platform.t :=
  Platform.mk (fun _ => None) (fun _ => None) (fun _ => None)
    (fun _ => "64a1b2c3d4e5f6a7b8c9d0ff") (fun _ => "K3J9X0Q2M")
    (fun _ => true) (fun _ _ => None) (fun _ => None).

(** The same platform with a driver that has lost its connection. *)
Definition offline : Platform.t :=
  Platform.mk (fun _ => None) (fun _ => None) (fun _ => Some "connection lost")
    (fun _ => "64a1b2c3d4e5f6a7b8c9d0ff") (fun _ => "K3J9X0Q2M")
    (fun _ => true) (fun _ _ => None) (fun _ => None).

Definition lahore : Farmhouse.t :=
  Farmhouse.mk "f1" (Some "FARM-1") (Some "Green Valley Farm") (Some "m1")
    (Some "a1") ["s1"; "s2"] (Some "Lahore").

(** A farmhouse whose location is the empty string. *)
Definition nowhere : Farmhouse.t :=
  Farmhouse.mk "f2" (Some "FARM-2") (Some "Unplaced") None (Some "a2") [] (Some "").

Definition flood : Alert.t :=
  Alert.mk "al1" (Some "Flood") (Some "weather") (Some "Lahore") (Some "River rising").

Definition heat : Alert.t :=
  Alert.mk "al2" (Some "Heat") (Some "weather") (Some "Multan") (Some "Heat wave").

(** An alert whose location is the empty string. *)
Definition unplaced : Alert.t :=
  Alert.mk "al3" (Some "Notice") (Some "general") (Some "") (Some "No place").

Definition db : Store.t :=
  Store.mk (fun _ => []) [lahore; nowhere]
    [FarmhouseUsers.mk "a1" ["m1"] ["s1"; "s2"]] [flood; heat; unplaced].

Definition admin_a1 : Express.User := Express.mkUser "a1" "admin" None None.

Definition request (u : option Express.User) (ps : list (string * string))
  (b : list (string * Js.JVal)) : Express.Request :=
  Express.mkRequest u (list_to_map ps) (list_to_map b).

(** A middleware that lets every request through. *)
Definition pass : Express.Middleware := Express.Next.

(** The platform with a driver that fails on the alert collection only. *)
Definition offline_alerts : Platform.t :=
  Platform.mk (fun _ => None) (fun _ => None)
    (fun c => match c with Store.Alerts => Some "cursor timed out" | _ => None end)
    (fun _ => "64a1b2c3d4e5f6a7b8c9d0ff") (fun _ => "K3J9X0Q2M")
    (fun _ => true) (fun _ _ => None) (fun _ => None).

(** A CSV helper whose buffer is the table of cells itself; a cell holds
    a string as it is and is empty for any other value. *)
Definition table_cell (v : option Js.JVal) : string :=
  match v with
  | Some (Js.JStr s) => s
  | _ => ""
  end.

Definition table : Csv.Helper :=
  Csv.mkHelper (list Csv.Row) table_cell
    (fun data fields =>
       map (fun d : Doc =>
              list_to_map (map (fun f => (f, table_cell (d !! f))) fields) : Csv.Row)
           data)
    (fun buffer _ => Ok (buffer, []))
    (fun s => eq_refl)
    (fun data fields => eq_refl).

(** The body of a complete breeding record. *)
Definition mating : list (string * Js.JVal) :=
  [("sireTagId", Js.JStr "G001"); ("damTagId", Js.JStr "G002");
   ("breedingDate", Js.JStr "2024-01-15");
   ("breedingMethod", Js.JStr "Natural Mating");
   ("expectedDelivery", Js.JStr "2024-06-15");
   ("actualDelivery", Js.JStr "2024-06-18");
   ("numberOfOffspring", Js.JNum 2); ("status", Js.JStr "Successful");
   ("cost", Js.JNum 0); ("performedBy", Js.JStr "Farm Manager");
   ("notes", Js.JStr "Healthy twins born")].

(** The body of a complete animal, with a property the schema does not
    know. *)
Definition kid_body : list (string * Js.JVal) :=
  [("tagId", Js.JStr "G003"); ("breed", Js.JStr "Boer"); ("gender", Js.JStr "Female");
   ("dob", Js.JStr "2022-03-15"); ("weight", Js.JNum 45); ("condition", Js.JStr "Good");
   ("status", Js.JStr "Active"); ("farmhouse", Js.JStr "Papu Famu");
   ("acquisitionType", Js.JStr "Birth"); ("acquisitionDate", Js.JStr "2022-03-15");
   ("owner", Js.JStr "a2")].

(** A stored animal. *)
Definition goat_stored : Doc :=
  list_to_map [("_id", Js.JStr "g1"); ("tagId", Js.JStr "G001")].

(** [parseInt] on a string of decimal digits after an optional minus sign;
    [NaN] for any other query. *)
Fixpoint decimal (s : string) (acc : option Z) : option Z :=
  match s with
  | EmptyString => acc
  | String ch rest =>
      let n := Z.of_N (N_of_ascii ch) in
      if Z.leb 48 n && Z.leb n 57
      then decimal rest (Some (default 0%Z acc * 10 + (n - 48))%Z)
      else None
  end.

Definition parseInt (q : option string) : option Z :=
  match q with
  | Some (String "-" digits) => Z.opp <$> decimal digits None
  | Some digits => decimal digits None
  | None => None
  end.

(** A collection is stored in the order of creation, so that the newest
    documents come first in its reversal. *)
Definition newest_first (ds : list Doc) : list Doc := rev ds.

(** Three stored breeding records. *)
Definition first_mating : Doc := list_to_map [("_id", Js.JStr "b1")].
Definition second_mating : Doc := list_to_map [("_id", Js.JStr "b2")].
Definition third_mating : Doc := list_to_map [("_id", Js.JStr "b3")].

Definition matings : Store.t :=
  Store.set_docs Store.Breedings [first_mating; second_mating; third_mating] db.

(** [toLowerCase] on the letters of ASCII. *)
Definition lower_ascii (ch : ascii) : ascii :=
  let n := N_of_ascii ch in
  if N.leb 65 n && N.leb n 90 then ascii_of_N (n + 32) else ch.

Fixpoint toLowerCase (s : string) : string :=
  match s with
  | EmptyString => EmptyString
  | String ch rest => String (lower_ascii ch) (toLowerCase rest)
  end.

(** The day the dashboard is asked for, and a herd of three. *)
Definition today : Dashboard.Date := Dashboard.mkDate 2024 5.

Definition doe : Dashboard.Animal :=
  Dashboard.mkAnimal (Some "G001") (Some "Female") (Some (Dashboard.mkDate 2022 2))
    (Some "Good").

Definition old_buck : Dashboard.Animal :=
  Dashboard.mkAnimal (Some "G002") (Some "Male") (Some (Dashboard.mkDate 2017 0))
    (Some "Poor").

Definition kid : Dashboard.Animal :=
  Dashboard.mkAnimal (Some "G003") (Some "Female") (Some (Dashboard.mkDate 2024 3))
    (Some "Good").

(** An animal stored without a date of birth. *)
Definition foundling : Dashboard.Animal :=
  Dashboard.mkAnimal (Some "G004") (Some "Male") None (Some "Good").

Definition herd : list Dashboard.Animal := [doe; old_buck; kid].

Definition seasons : list Dashboard.Breeding :=
  [Dashboard.mkBreeding (Some "Successful"); Dashboard.mkBreeding (Some "Failed");
   Dashboard.mkBreeding (Some "In Progress"); Dashboard.mkBreeding None].

(** An animal one of whose image names holds a semicolon. *)
Definition goat : Doc :=
  list_to_map [("tagId", Js.JStr "G001"); ("breed", Js.JStr "Boer");
               ("images", Js.JArr [Js.JStr "a;b"])].

End Sample.

(** * Properties *)

(** ** Generic facts *)

Lemma filter_bool_prop {A : Type} (f : A -> bool) (Q : A -> Prop)
  `{!forall x, Decision (Q x)} (l : list A) :
  (forall x, f x = true <-> Q x) -> List.filter f l = filter Q l.
Proof.
  intros Hf. induction l as [|x l IH]; [reflexivity|].
  simpl. rewrite filter_cons. destruct (f x) eqn:E.
  - rewrite decide_True by (apply Hf; exact E). by rewrite IH.
  - rewrite decide_False; [exact IH|]. intros HQ. apply Hf in HQ. congruence.
Qed.

Lemma same_value_Some (a : option string) (b : string) :
  Js.same_value a (Some b) = true <-> a = Some b.
Proof.
  destruct a as [x|]; simpl.
  - rewrite String.eqb_eq. split; [intros ->; reflexivity | intros [= ->]; reflexivity].
  - split; discriminate.
Qed.

Lemma includes_id_elem (l : list string) (x : string) :
  Js.includes_id l x = true <-> x ∈ l.
Proof.
  unfold Js.includes_id. rewrite existsb_exists. split.
  - intros (y & Hin & Heq). apply String.eqb_eq in Heq. subst y.
    by apply list_elem_of_In.
  - intros Hin. exists x. split; [by apply list_elem_of_In | apply String.eqb_refl].
Qed.

Lemma call_healthy (P : Platform.t) (c : Store.Collection) :
  Platform.healthy P -> Mongoose.call P c = Ok tt.
Proof. intros H. unfold Mongoose.call. by rewrite (H c). Qed.

(** ** The alert feed *)

Module AlertFeedFacts.
Import AlertFeed.

Lemma query_owns (r : Role) (userId : string) (fh : Farmhouse.t) :
  match r with
  | Admin => Mongoose.q_admin userId fh
  | Manager => Mongoose.q_manager userId fh
  | Assistant => Mongoose.q_assistants userId fh
  end = true <-> owns r userId fh.
Proof.
  destruct r; simpl.
  - apply same_value_Some.
  - apply same_value_Some.
  - apply includes_id_elem.
Qed.

(** The locations kept by [.map(fh => fh.location).filter(Boolean)] are the
    non-empty location strings. *)
Lemma includes_located (fhs : list Farmhouse.t) (a : Alert.t) :
  Js.includes (List.filter Js.Boolean (map Farmhouse.location fhs)) (Alert.location a)
  = true
  <-> located_in
        (omap (fun fh =>
                 match Farmhouse.location fh with
                 | Some l => if decide (l = "") then None else Some l
                 | None => None
                 end) fhs) a.
Proof.
  unfold Js.includes, located_in. rewrite existsb_exists. split.
  - intros (x & Hin & Hsame). apply filter_In in Hin as [Hin Hb].
    apply in_map_iff in Hin as (fh & Hloc & Hfh). subst x.
    destruct (Farmhouse.location fh) as [l|] eqn:El; [|discriminate].
    destruct (Alert.location a) as [la|]; [|discriminate]. simpl in Hsame.
    apply String.eqb_eq in Hsame. subst la.
    exists l. split; [reflexivity|].
    apply list_elem_of_omap. exists fh. split; [by apply list_elem_of_In|].
    rewrite El. simpl in Hb. destruct (decide (l = "")) as [->|]; [discriminate|done].
  - intros (l & Hloc & Hin). apply list_elem_of_omap in Hin as (fh & Hfh & Hsome).
    destruct (Farmhouse.location fh) as [l'|] eqn:El; [|discriminate].
    destruct (decide (l' = "")) as [|Hne]; [discriminate|]. injection Hsome as ->.
    exists (Some l). split.
    + apply filter_In. split.
      * apply in_map_iff. exists fh. split; [exact El | by apply list_elem_of_In].
      * simpl. apply negb_true_iff. apply String.eqb_neq. exact Hne.
    + rewrite Hloc. simpl. apply String.eqb_refl.
Qed.

Lemma find_owned (P : Platform.t) (r : Role) (userId : string) (db : Store.t) :
  Platform.healthy P ->
  (if String.eqb (role_name r) "admin" then
     Mongoose.Farmhouse_find P (Mongoose.q_admin userId) db
   else if String.eqb (role_name r) "manager" then
     Mongoose.Farmhouse_find P (Mongoose.q_manager userId) db
   else if String.eqb (role_name r) "assistant" then
     Mongoose.Farmhouse_find P (Mongoose.q_assistants userId) db
   else mret [])
  = Ok (filter (owns r userId) (Store.farmhouses db)).
Proof.
  intros H. destruct r; simpl; unfold Mongoose.Farmhouse_find;
    rewrite (call_healthy P _ H); simpl; f_equal; apply filter_bool_prop;
    intros fh.
  - apply (query_owns Admin).
  - apply (query_owns Manager).
  - apply (query_owns Assistant).
Qed.

Lemma getFilteredAlerts_visible (P : Platform.t) (r : Role) (userId : string)
  (db : Store.t) :
  Platform.healthy P ->
  getFilteredAlerts P (role_name r) userId db = Ok (visible r userId db).
Proof.
  intros H. unfold getFilteredAlerts. rewrite (find_owned P r userId db H).
  simpl. unfold visible, owned_locations.
  destruct (filter (owns r userId) (Store.farmhouses db)) as [|fh fhs] eqn:E.
  - simpl. f_equal.
    induction (Store.alerts db) as [|a l IH]; [reflexivity|].
    rewrite filter_cons. rewrite decide_False; [exact IH|].
    intros (l' & _ & Hin). by apply not_elem_of_nil in Hin.
  - cbn [length Nat.eqb]. unfold Mongoose.Alert_find.
    rewrite (call_healthy P _ H). simpl. f_equal.
    apply filter_bool_prop. intros a. apply (includes_located (fh :: fhs) a).
Qed.

Lemma getFilteredAlerts_total (P : Platform.t) (role userId : string) (db : Store.t) :
  Platform.healthy P -> exists alerts, getFilteredAlerts P role userId db = Ok alerts.
Proof.
  intros H. unfold getFilteredAlerts, Mongoose.Farmhouse_find, Mongoose.Alert_find.
  rewrite !(call_healthy P _ H).
  destruct (String.eqb role "admin"); [|destruct (String.eqb role "manager");
    [|destruct (String.eqb role "assistant")]]; simpl;
    try match goal with
        | |- context [length ?l] => destruct l; simpl
        end; eauto.
Qed.

(** C1: for each of the three roles, [getFilteredAlerts] returns the alerts
    whose location is one of the non-empty locations of the farmhouses the
    user owns in that role (every farmhouse and alert collection, the
    driver answering); with no farmhouse owned the result is empty, and an
    alert is only there through a non-empty location of an owned
    farmhouse. *)
Theorem feed_equals_reference (P : Platform.t) (r : Role) (userId : string)
  (db : Store.t) :
  Platform.healthy P ->
  getFilteredAlerts P (role_name r) userId db = Ok (visible r userId db)
  /\ (filter (owns r userId) (Store.farmhouses db) = [] ->
      getFilteredAlerts P (role_name r) userId db = Ok [])
  /\ (forall a, a ∈ visible r userId db ->
      a ∈ Store.alerts db /\
      exists l fh, l <> "" /\ Alert.location a = Some l /\
                   fh ∈ Store.farmhouses db /\ owns r userId fh /\
                   Farmhouse.location fh = Some l).
Proof.
  intros H. pose proof (getFilteredAlerts_visible P r userId db H) as Hv.
  split; [exact Hv|]. split.
  - intros Hnone. rewrite Hv. f_equal. unfold visible, owned_locations.
    rewrite Hnone. simpl. induction (Store.alerts db) as [|a l IH]; [reflexivity|].
    rewrite filter_cons. rewrite decide_False; [exact IH|].
    intros (l' & _ & Hin). by apply not_elem_of_nil in Hin.
  - intros a Ha. unfold visible in Ha. apply list_elem_of_filter in Ha as [Hloc Ha].
    split; [exact Ha|]. destruct Hloc as (l & Hl & Hin).
    unfold owned_locations in Hin. apply list_elem_of_omap in Hin as (fh & Hfh & Hsome).
    apply list_elem_of_filter in Hfh as [Hown Hfh].
    destruct (Farmhouse.location fh) as [l'|] eqn:El; [|discriminate].
    destruct (decide (l' = "")) as [|Hne]; [discriminate|]. injection Hsome as ->.
    exists l, fh. auto.
Qed.

Lemma feed_equals_reference_witness :
  Platform.healthy Sample.platform
  /\ getFilteredAlerts Sample.platform (role_name Admin) "a1" Sample.db
     = Ok [Sample.flood].
Proof.
  split.
  - intros c. reflexivity.
  - destruct (feed_equals_reference Sample.platform Admin "a1" Sample.db) as [Hv _].
    + intros c. reflexivity.
    + rewrite Hv. vm_compute. reflexivity.
Defined.

(** *** The connection path *)

Lemma literal_spec (lit s rest : string) :
  literal lit s = Some rest <-> s = lit +:+ rest.
Proof.
  revert s. induction lit as [|c lit IH]; intros s; simpl.
  - split; [intros [= ->]; reflexivity | intros ->; reflexivity].
  - destruct s as [|d s]; [split; discriminate|].
    destruct (Ascii.eqb c d) eqn:E.
    + apply Ascii.eqb_eq in E. subst d. rewrite IH.
      split; [intros ->; reflexivity | intros [= ->]; reflexivity].
    + apply Ascii.eqb_neq in E. split; [discriminate | intros [= -> _]; done].
Qed.

Lemma alternatives_sound (roles : list string) (s role userId : string) :
  alternatives roles s = Some (role, userId) ->
  role ∈ roles /\ s = role +:+ "/" +:+ userId /\ word_to_end userId = true.
Proof.
  induction roles as [|r roles IH]; cbn [alternatives]; [discriminate|].
  intros Halt.
  assert (Hnext : alternatives roles s = Some (role, userId) ->
                  role ∈ r :: roles /\ s = role +:+ "/" +:+ userId
                  /\ word_to_end userId = true).
  { intros Hn. destruct (IH Hn) as (? & ? & ?). split; [by right | done]. }
  destruct (literal r s) as [after|] eqn:Er; [|auto].
  destruct (literal "/" after) as [u|] eqn:Eu; [|auto].
  destruct (word_to_end u) eqn:Ew; [|auto].
  injection Halt as -> ->.
  apply literal_spec in Er. apply literal_spec in Eu. subst.
  split; [by left | done].
Qed.

Lemma role_names (role : string) :
  role ∈ ["admin"; "manager"; "assistant"] -> exists r, role = role_name r.
Proof.
  intros H. repeat (apply elem_of_cons in H as [->|H]).
  - by exists Admin.
  - by exists Manager.
  - by exists Assistant.
  - by apply not_elem_of_nil in H.
Qed.

Lemma word_to_end_spec (userId : string) :
  word_to_end userId = true <-> userId <> "" /\ all_word userId = true.
Proof.
  unfold word_to_end. rewrite andb_true_iff, negb_true_iff, String.eqb_neq. done.
Qed.

Lemma url_match_sound (url role userId : string) :
  url_match url = Some (role, userId) ->
  exists r, role = role_name r /\ userId <> "" /\ all_word userId = true
            /\ url = "/alerts/" +:+ role_name r +:+ "/" +:+ userId.
Proof.
  unfold url_match. destruct (literal "/alerts/" url) as [rest|] eqn:E; [|discriminate].
  intros Halt. apply alternatives_sound in Halt as (Hrole & -> & Hw).
  apply role_names in Hrole as [r ->]. apply word_to_end_spec in Hw as [Hne Hall].
  apply literal_spec in E. exists r. auto.
Qed.

#[local] Arguments String.append : simpl nomatch.

Lemma url_match_complete (r : Role) (userId : string) :
  userId <> "" -> all_word userId = true ->
  url_match ("/alerts/" +:+ role_name r +:+ "/" +:+ userId)
  = Some (role_name r, userId).
Proof.
  intros Hne Hall.
  assert (Hw : word_to_end userId = true) by (apply word_to_end_spec; done).
  destruct r; unfold url_match; cbn -[word_to_end]; rewrite Hw; reflexivity.
Qed.

Lemma url_match_well_formed (url : string) :
  well_formed url <-> exists role userId, url_match url = Some (role, userId).
Proof.
  split.
  - intros (r & userId & Hne & Hall & ->).
    exists (role_name r), userId. by apply url_match_complete.
  - intros (role & userId & Hm).
    apply url_match_sound in Hm as (r & -> & Hne & Hall & ->).
    exists r, userId. done.
Qed.

(** *** Change events and connections *)

Lemma pushed_operation_test (operationType : string) :
  String.eqb operationType "insert" || String.eqb operationType "update"
  || String.eqb operationType "replace" || String.eqb operationType "delete" = true
  <-> operationType ∈ pushed_operations.
Proof.
  unfold pushed_operations. rewrite !orb_true_iff, !String.eqb_eq, !elem_of_cons.
  split; [intros [[[?|?]|?]|?]; auto | intros [?|[?|[?|[?|H]]]]; auto].
  by apply not_elem_of_nil in H.
Qed.

(** C3: on a change event of an open session, if the operation type is
    insert, update, replace or delete, the handler computes the visible
    alert set anew on the current collections, by the computation used on
    connect, and sends that whole set as one frame; for any other
    operation type it sends nothing. *)
Theorem change_event_resends_whole_set (P : Platform.t) (s : Session)
  (operationType : string) (db : Store.t) :
  Platform.healthy P ->
  (operationType ∈ pushed_operations ->
   exists alerts,
     getFilteredAlerts P (role s) (userId s) db = Ok alerts
     /\ on_change P s operationType db = Ok [WsSend alerts]
     /\ (forall r, role s = role_name r -> alerts = visible r (userId s) db)
     /\ (forall url, url_match url = Some (role s, userId s) ->
         connection P url db = Ok ([WsSend alerts; WatchOpened], Some s)))
  /\ (operationType ∉ pushed_operations -> on_change P s operationType db = Ok []).
Proof.
  intros H. split.
  - intros Hop. destruct (getFilteredAlerts_total P (role s) (userId s) db H)
      as [alerts Ha].
    exists alerts. split; [exact Ha|]. split; [|split].
    + unfold on_change. apply pushed_operation_test in Hop. rewrite Hop.
      unfold sendAlerts. rewrite Ha. reflexivity.
    + intros r Hr. rewrite Hr in Ha.
      rewrite (getFilteredAlerts_visible P r (userId s) db H) in Ha. congruence.
    + intros url Hm. unfold connection. rewrite Hm. unfold sendAlerts. simpl.
      rewrite Ha. destruct s. reflexivity.
  - intros Hop. unfold on_change.
    destruct (String.eqb operationType "insert" || String.eqb operationType "update"
              || String.eqb operationType "replace"
              || String.eqb operationType "delete") eqn:E; [|reflexivity].
    apply pushed_operation_test in E. contradiction.
Qed.

Lemma change_event_resends_whole_set_witness :
  Platform.healthy Sample.platform
  /\ on_change Sample.platform (mkSession "admin" "a1") "delete" Sample.db
     = Ok [WsSend [Sample.flood]]
  /\ on_change Sample.platform (mkSession "admin" "a1") "invalidate" Sample.db = Ok [].
Proof.
  assert (Hh : Platform.healthy Sample.platform) by (intros c; reflexivity).
  split; [exact Hh|].
  destruct (change_event_resends_whole_set Sample.platform (mkSession "admin" "a1")
              "delete" Sample.db Hh) as [Hpush _].
  destruct (change_event_resends_whole_set Sample.platform (mkSession "admin" "a1")
              "invalidate" Sample.db Hh) as [_ Hskip].
  split.
  - destruct Hpush as (alerts & _ & Hsend & Hvis & _).
    + unfold pushed_operations. set_solver.
    + rewrite Hsend. rewrite (Hvis Admin eq_refl). vm_compute. reflexivity.
  - apply Hskip. unfold pushed_operations. intros Hin.
    repeat (apply elem_of_cons in Hin as [Hin|Hin]; [discriminate Hin|]).
    by apply not_elem_of_nil in Hin.
Defined.

(** C4: a connection whose path is not [/alerts/{role}/{userId}], with one
    of the three role literals and a non-empty word-character user id, is
    closed at once and nothing is sent on it; on a well-formed path the
    server sends one frame, the alert array of that role and user, and
    only then opens the change stream. *)
Theorem connection_protocol (P : Platform.t) (url : string) (db : Store.t) :
  (~ well_formed url -> connection P url db = Ok ([WsClose], None))
  /\ (well_formed url -> Platform.healthy P ->
      exists r userId,
        url = "/alerts/" +:+ role_name r +:+ "/" +:+ userId
        /\ connection P url db
           = Ok ([WsSend (visible r userId db); WatchOpened],
                 Some (mkSession (role_name r) userId))).
Proof.
  split.
  - intros Hbad. unfold connection.
    destruct (url_match url) as [[role userId]|] eqn:E; [|reflexivity].
    exfalso. apply Hbad. apply url_match_well_formed. eauto.
  - intros (r & userId & Hne & Hall & ->) H. exists r, userId.
    split; [reflexivity|]. unfold connection.
    rewrite (url_match_complete r userId Hne Hall). unfold sendAlerts. simpl.
    rewrite (getFilteredAlerts_visible P r userId db H). reflexivity.
Qed.

Lemma not_well_formed_query : ~ well_formed "/alerts/admin/a1?x=1".
Proof.
  intros Hwf. apply url_match_well_formed in Hwf as (role & userId & Hm).
  vm_compute in Hm. discriminate Hm.
Qed.

Lemma well_formed_admin_a1 : well_formed "/alerts/admin/a1".
Proof. exists Admin, "a1". repeat split. discriminate. Qed.

Lemma connection_protocol_witness :
  connection Sample.platform "/alerts/admin/a1?x=1" Sample.db = Ok ([WsClose], None)
  /\ exists r userId,
       "/alerts/admin/a1" = "/alerts/" +:+ role_name r +:+ "/" +:+ userId
       /\ connection Sample.platform "/alerts/admin/a1" Sample.db
          = Ok ([WsSend (visible r userId Sample.db); WatchOpened],
                Some (mkSession (role_name r) userId)).
Proof.
  split.
  - apply (connection_protocol Sample.platform "/alerts/admin/a1?x=1" Sample.db).
    exact not_well_formed_query.
  - apply (connection_protocol Sample.platform "/alerts/admin/a1" Sample.db).
    + exact well_formed_admin_a1.
    + intros c. reflexivity.
Defined.

End AlertFeedFacts.

(** ** The alert router *)

Module AlertsRouterFacts.
Import AlertFeed.

Lemma by_admin_visible (P : Platform.t) (req : Express.Request) (db : Store.t) :
  Platform.healthy P ->
  filter (owns Admin (Express.param req "userId")) (Store.farmhouses db) <> [] ->
  AlertsRouter.by_admin P req db
  = Ok (respond 200 (BAlerts (visible Admin (Express.param req "userId") db)), db).
Proof.
  intros H Hsome. unfold AlertsRouter.by_admin, AlertsRouter.get_by_admin,
    AlertsRouter.by_owner, Express.route, Mongoose.Farmhouse_find, Mongoose.Alert_find.
  rewrite !(call_healthy P _ H). simpl.
  rewrite (filter_bool_prop _ (owns Admin (Express.param req "userId")))
    by (intros fh; apply (AlertFeedFacts.query_owns Admin)).
  destruct (filter (owns Admin (Express.param req "userId")) (Store.farmhouses db))
    as [|fh fhs] eqn:E; [done|].
  cbn [length Nat.eqb mbind mret Outcome_bind Outcome_ret try_catch]. unfold json.
  do 4 f_equal. unfold visible, owned_locations. rewrite E.
  apply filter_bool_prop. intros a. apply (AlertFeedFacts.includes_located (fh :: fhs) a).
Qed.

(** C2, as the code has it: for an admin [A] who owns a farmhouse, the
    socket feed of role admin and [GET /alerts/by-admin/A] (which answers
    200) hold the same alerts, namely the alerts whose location is the
    non-empty location of a farmhouse of [A]; an alert whose location
    matches no such farmhouse is in neither. *)
Theorem by_admin_agrees_with_feed (P : Platform.t) (A : string)
  (req : Express.Request) (db : Store.t) :
  Platform.healthy P ->
  Express.param req "userId" = A ->
  (exists fh, fh ∈ Store.farmhouses db /\ Farmhouse.admin fh = Some A) ->
  exists alerts,
    getFilteredAlerts P "admin" A db = Ok alerts
    /\ AlertsRouter.by_admin P req db = Ok (respond 200 (BAlerts alerts), db)
    /\ forall a, a ∈ alerts <->
         a ∈ Store.alerts db
         /\ exists L fh, L <> "" /\ fh ∈ Store.farmhouses db
                         /\ Farmhouse.admin fh = Some A
                         /\ Farmhouse.location fh = Some L
                         /\ Alert.location a = Some L.
Proof.
  intros H Hp (fh0 & Hfh0 & Hadmin0). exists (visible Admin A db).
  split; [exact (AlertFeedFacts.getFilteredAlerts_visible P Admin A db H)|]. split.
  - rewrite <- Hp. apply by_admin_visible; [exact H|]. rewrite Hp.
    intros Hnil. assert (Hin : fh0 ∈ filter (owns Admin A) (Store.farmhouses db))
      by (apply list_elem_of_filter; done).
    rewrite Hnil in Hin. by apply not_elem_of_nil in Hin.
  - intros a. unfold visible. rewrite list_elem_of_filter. split.
    + intros [(l & Hl & Hin) Ha]. split; [exact Ha|].
      unfold owned_locations in Hin.
      apply list_elem_of_omap in Hin as (fh & Hfh & Hsome).
      apply list_elem_of_filter in Hfh as [Hown Hfh].
      destruct (Farmhouse.location fh) as [l'|] eqn:El; [|discriminate].
      destruct (decide (l' = "")) as [|Hne]; [discriminate|]. injection Hsome as ->.
      exists l, fh. auto.
    + intros [Ha (L & fh & Hne & Hfh & Hadm & Hloc & Hal)]. split; [|exact Ha].
      exists L. split; [exact Hal|]. unfold owned_locations.
      apply list_elem_of_omap. exists fh. split.
      * apply list_elem_of_filter. done.
      * rewrite Hloc. by rewrite decide_False.
Qed.

Lemma by_admin_agrees_with_feed_witness :
  exists alerts,
    getFilteredAlerts Sample.platform "admin" "a1" Sample.db = Ok alerts
    /\ AlertsRouter.by_admin Sample.platform
         (Sample.request None [("userId", "a1")] []) Sample.db
       = Ok (respond 200 (BAlerts alerts), Sample.db)
    /\ forall a, a ∈ alerts <->
         a ∈ Store.alerts Sample.db
         /\ exists L fh, L <> "" /\ fh ∈ Store.farmhouses Sample.db
                         /\ Farmhouse.admin fh = Some "a1"
                         /\ Farmhouse.location fh = Some L
                         /\ Alert.location a = Some L.
Proof.
  apply (by_admin_agrees_with_feed Sample.platform "a1"
           (Sample.request None [("userId", "a1")] []) Sample.db).
  - intros c. reflexivity.
  - vm_compute. reflexivity.
  - exists Sample.lahore. split; [|reflexivity]. unfold Sample.db. simpl. set_solver.
Defined.

(** C2, as stated, fails at the empty location: farmhouse [nowhere] has
    admin [a2] and location [""], alert [unplaced] has location [""], yet
    the alert is neither pushed to the feed of [a2] nor in the answer of
    [GET /alerts/by-admin/a2]. *)
Lemma empty_location_is_not_shared :
  Sample.nowhere ∈ Store.farmhouses Sample.db
  /\ Farmhouse.admin Sample.nowhere = Some "a2"
  /\ Farmhouse.location Sample.nowhere = Some ""
  /\ Sample.unplaced ∈ Store.alerts Sample.db
  /\ Alert.location Sample.unplaced = Some ""
  /\ getFilteredAlerts Sample.platform "admin" "a2" Sample.db = Ok []
  /\ AlertsRouter.by_admin Sample.platform
       (Sample.request None [("userId", "a2")] []) Sample.db
     = Ok (respond 200 (BAlerts []), Sample.db).
Proof.
  repeat split; try reflexivity.
  - unfold Sample.db. simpl. set_solver.
  - unfold Sample.db. simpl. set_solver.
Qed.

End AlertsRouterFacts.

(** ** Role gates *)

Module GateFacts.
Import Express.

(** A request that [auth] lets through and the next middleware answers is
    answered by that middleware, and the store is left as it was. *)
Lemma route_auth_reply (auth gate : Middleware) (h : Handler)
  (req req' : Request) (res : Response) (db : Store.t) :
  auth req = Next req' -> gate req' = Reply res ->
  route [auth; gate] h req db = Ok (res, db).
Proof. intros Ha Hg. simpl. rewrite Ha, Hg. reflexivity. Qed.

Lemma manager_rejects (req : Request) (u : User) :
  user req = Some u -> role u <> "manager" ->
  Middleware.manager req
  = Reply (respond 403 (BMsg "Access denied. Manager privileges required.")).
Proof.
  intros Hu Hr. unfold Middleware.manager. rewrite Hu.
  apply String.eqb_neq in Hr. rewrite Hr. reflexivity.
Qed.

Lemma superadmin_rejects (required : string) (req : Request) (u : User) :
  user req = Some u -> role u <> required ->
  Middleware.superadmin required req
  = Reply (respond 403 (BMsg "Access denied. Super admin only.")).
Proof.
  intros Hu Hr. unfold Middleware.superadmin. rewrite Hu.
  apply String.eqb_neq in Hr. rewrite Hr. reflexivity.
Qed.

(** C5: when the token decodes to a user whose role is not the required
    one, a route behind the [manager] middleware, [GET /farmhouse/admin],
    and the four alert mutation routes behind [superadmin] answer 403 and
    leave the store as it was. *)
Theorem wrong_role_is_denied (P : Platform.t) (auth : Middleware)
  (superadminRole : string) (h : Handler) (req req' : Request) (u : User)
  (db : Store.t) :
  auth req = Next req' ->
  user req' = Some u ->
  (role u <> "manager" ->
   route [auth; Middleware.manager] h req db
   = Ok (respond 403 (BMsg "Access denied. Manager privileges required."), db))
  /\ (role u <> "admin" ->
      FarmhouseRouter.get_admin P auth req db
      = Ok (respond 403 (BError "Access denied. Admins only."), db))
  /\ (role u <> superadminRole ->
      let denied := Ok (respond 403 (BMsg "Access denied. Super admin only."), db) in
      AlertsRouter.post P auth superadminRole req db = denied
      /\ AlertsRouter.put P auth superadminRole req db = denied
      /\ AlertsRouter.patch P auth superadminRole req db = denied
      /\ AlertsRouter.delete P auth superadminRole req db = denied).
Proof.
  intros Ha Hu. split; [|split].
  - intros Hr. apply (route_auth_reply auth _ h req req'); [exact Ha|].
    by apply (manager_rejects req' u).
  - intros Hr. unfold FarmhouseRouter.get_admin, FarmhouseRouter.get_admin_handler,
      FarmhouseRouter.by_role. simpl. rewrite Ha. unfold user_of. rewrite Hu. simpl.
    apply String.eqb_neq in Hr. rewrite Hr. reflexivity.
  - intros Hr denied.
    pose proof (superadmin_rejects superadminRole req' u Hu Hr) as Hs.
    unfold AlertsRouter.post, AlertsRouter.put, AlertsRouter.patch,
      AlertsRouter.delete, AlertsRouter.superadmin.
    repeat split; apply (route_auth_reply auth _ _ req req'); assumption.
Qed.

Lemma wrong_role_is_denied_witness :
  let assistant := mkUser "s1" "assistant" None None in
  let req := Sample.request (Some assistant) [("id", "al1")] [] in
  route [Sample.pass; Middleware.manager]
    (AlertsRouter.delete_handler Sample.platform) req Sample.db
  = Ok (respond 403 (BMsg "Access denied. Manager privileges required."), Sample.db)
  /\ FarmhouseRouter.get_admin Sample.platform Sample.pass req Sample.db
     = Ok (respond 403 (BError "Access denied. Admins only."), Sample.db)
  /\ AlertsRouter.delete Sample.platform Sample.pass "super_admin" req Sample.db
     = Ok (respond 403 (BMsg "Access denied. Super admin only."), Sample.db).
Proof.
  intros assistant req.
  destruct (wrong_role_is_denied Sample.platform Sample.pass "super_admin"
              (AlertsRouter.delete_handler Sample.platform) req req assistant
              Sample.db eq_refl eq_refl) as (Hm & Ha & Hs).
  split; [apply Hm; discriminate|]. split; [apply Ha; discriminate|].
  apply Hs. discriminate.
Defined.

(** C10: in the scope of the farmhouse router, [admin || superadmin]
    evaluates to the [admin] middleware without reading [superadmin],
    which that scope does not declare; [DELETE /farmhouse/:id] is the
    chain [auth, admin] before the handler, a request that [admin] answers
    is answered by it whatever the role of the user, and a request that
    passes is still refused by the handler unless the user is the recorded
    admin of the farmhouse. *)
Theorem delete_guard_is_admin (P : Platform.t) (auth admin : Middleware) :
  FarmhouseRouter.scope auth admin !! "superadmin" = None
  /\ JsExpr.eval (FarmhouseRouter.scope auth admin) (JsExpr.Ident "superadmin")
     = Throw "superadmin is not defined"
  /\ (forall e, JsExpr.eval (FarmhouseRouter.scope auth admin)
                  (JsExpr.Or (JsExpr.Ident "admin") e)
                = Ok (JsExpr.VFunction admin))
  /\ FarmhouseRouter.delete P auth admin
     = Ok (route [auth; admin] (FarmhouseRouter.delete_handler P))
  /\ (forall req req' res db,
        auth req = Next req' -> admin req' = Reply res ->
        route [auth; admin] (FarmhouseRouter.delete_handler P) req db = Ok (res, db))
  /\ (forall req req1 req2 u fh owner db,
        auth req = Next req1 -> admin req1 = Next req2 ->
        user req2 = Some u ->
        Mongoose.Farmhouse_findById P (param req2 "id") db = Ok (Some fh) ->
        Farmhouse.admin fh = Some owner -> owner <> id u ->
        route [auth; admin] (FarmhouseRouter.delete_handler P) req db
        = Ok (respond 403
                (BError "Access denied. You are not the admin of this farmhouse."),
              db)).
Proof.
  split; [reflexivity|]. split; [reflexivity|]. split; [reflexivity|].
  split; [reflexivity|]. split.
  - intros req req' res db Ha Hg. by apply (route_auth_reply auth admin _ req req').
  - intros req req1 req2 u fh owner db Ha Hg Hu Hfind Hadmin Hne.
    simpl. rewrite Ha, Hg. unfold FarmhouseRouter.delete_handler.
    rewrite Hfind. simpl. rewrite Hadmin. simpl. unfold user_of. rewrite Hu. simpl.
    apply String.eqb_neq in Hne. rewrite Hne. reflexivity.
Qed.

Lemma delete_guard_is_admin_witness :
  let superuser := mkUser "root" "super_admin" None None in
  let refuse : Middleware := fun _ => Reply (respond 403 (BMsg "Access denied.")) in
  let req := Sample.request (Some superuser) [("id", "f1")] [] in
  FarmhouseRouter.delete Sample.platform Sample.pass refuse
  = Ok (route [Sample.pass; refuse] (FarmhouseRouter.delete_handler Sample.platform))
  /\ route [Sample.pass; refuse] (FarmhouseRouter.delete_handler Sample.platform)
       req Sample.db
     = Ok (respond 403 (BMsg "Access denied."), Sample.db)
  /\ route [Sample.pass; Sample.pass] (FarmhouseRouter.delete_handler Sample.platform)
       req Sample.db
     = Ok (respond 403
             (BError "Access denied. You are not the admin of this farmhouse."),
           Sample.db).
Proof.
  intros superuser refuse req.
  destruct (delete_guard_is_admin Sample.platform Sample.pass refuse)
    as (_ & _ & _ & Hreg & Hrej & _).
  destruct (delete_guard_is_admin Sample.platform Sample.pass Sample.pass)
    as (_ & _ & _ & _ & _ & Hown).
  split; [exact Hreg|]. split.
  - apply (Hrej req req); reflexivity.
  - apply (Hown req req req superuser Sample.lahore "a1"); try reflexivity.
    discriminate.
Defined.

End GateFacts.

(** ** Create routes *)

Module CreateFacts.
Import Express.

Ltac missing_field Hnone :=
  unfold CrudRouters.falsy, CrudRouters.undefined; rewrite Hnone;
  cbn [Js.truthy Js.is_undefined negb];
  repeat (rewrite ?orb_true_r; cbn [orb]);
  eexists; reflexivity.

Lemma farmhouse_without_name (P : Platform.t) (req : Request) (db : Store.t) :
  body req !! "Name" = None ->
  exists error, FarmhouseRouter.post_handler P req db = Ok (respond 400 (BError error), db).
Proof.
  intros Hnone. unfold FarmhouseRouter.post_handler. rewrite Hnone.
  destruct (user_of req) as [u|e1]; [|eexists; reflexivity]. simpl.
  destruct (Mongoose.castString P (body req !! "manager_id")) as [m|e2];
    [|eexists; reflexivity]. simpl.
  destruct (Mongoose.castStringArray P (body req !! "assistants")) as [a|e3];
    [|eexists; reflexivity]. simpl.
  destruct (Mongoose.castString P (body req !! "location")) as [l|e4];
    [|eexists; reflexivity]. simpl.
  eexists; reflexivity.
Qed.

(** C6: for the animal, breeding, vaccination, health-record and farmhouse
    routers, a create request that reaches the handler and whose body
    lacks a required field is answered 400 with an error string, and the
    store after the request is the store before it. *)
Theorem missing_required_field_is_rejected (P : Platform.t) (r : Resources.t)
  (req : Request) (db : Store.t) (f : string) :
  f ∈ Resources.required r ->
  body req !! f = None ->
  exists error, Resources.create P r req db = Ok (respond 400 (BError error), db).
Proof.
  intros Hf Hnone. destruct r; simpl in Hf |- *.
  - unfold CrudRouters.post_animal.
    repeat (apply elem_of_cons in Hf as [->|Hf]; [missing_field Hnone|]).
    by apply not_elem_of_nil in Hf.
  - unfold CrudRouters.post_breeding, CrudRouters.breeding_fields in *.
    repeat (apply elem_of_cons in Hf as [->|Hf]; [missing_field Hnone|]).
    by apply not_elem_of_nil in Hf.
  - unfold CrudRouters.post_vaccination, CrudRouters.vaccination_fields in *.
    repeat (apply elem_of_cons in Hf as [->|Hf]; [missing_field Hnone|]).
    by apply not_elem_of_nil in Hf.
  - unfold CrudRouters.post_health, CrudRouters.health_fields in *.
    repeat (apply elem_of_cons in Hf as [->|Hf]; [missing_field Hnone|]).
    by apply not_elem_of_nil in Hf.
  - apply list_elem_of_singleton in Hf. subst f. by apply farmhouse_without_name.
Qed.

Lemma missing_required_field_is_rejected_witness :
  let req := Sample.request (Some Sample.admin_a1) []
               [("tagId", Js.JStr "G001"); ("breed", Js.JStr "Boer")] in
  exists error,
    Resources.create Sample.platform Resources.Animal req Sample.db
    = Ok (respond 400 (BError error), Sample.db).
Proof.
  intros req.
  apply (missing_required_field_is_rejected Sample.platform Resources.Animal req
           Sample.db "weight").
  - simpl. set_solver.
  - vm_compute. reflexivity.
Defined.

End CreateFacts.

(** ** Exceptions of the database calls *)

Module ErrorFacts.
Import Express.

Lemma call_down (P : Platform.t) (message : string) (c : Store.Collection) :
  Platform.down P message -> Mongoose.call P c = Throw message.
Proof. intros H. unfold Mongoose.call. by rewrite (H c). Qed.

Lemma castObjectId_valid (P : Platform.t) (s : string) :
  Platform.isObjectId P s = true -> Mongoose.castObjectId P s = Ok s.
Proof. intros H. unfold Mongoose.castObjectId. by rewrite H. Qed.


Lemma offline_is_down : Platform.down Sample.offline "connection lost".
Proof. intros c. reflexivity. Qed.



End ErrorFacts.

(** ** CSV export and import *)

Module CsvFacts.
Import CsvSpec.

#[local] Arguments String.append : simpl nomatch.

Lemma split_without_separator (c : ascii) (s : string) :
  occurs c s = false -> Js.split c s = [s].
Proof.
  induction s as [|d s IH]; simpl; [reflexivity|].
  intros Hocc. apply orb_false_iff in Hocc as [Hd Hs].
  rewrite Hd, (IH Hs). reflexivity.
Qed.

Lemma split_at_separator (c : ascii) (piece rest : string) :
  occurs c piece = false ->
  Js.split c (piece +:+ String c rest) = piece :: Js.split c rest.
Proof.
  induction piece as [|d piece IH]; simpl.
  - intros _. by rewrite Ascii.eqb_refl.
  - intros Hocc. apply orb_false_iff in Hocc as [Hd Hp].
    rewrite Hd, (IH Hp). reflexivity.
Qed.

Lemma split_join (l : list string) :
  Forall (fun s => occurs ";" s = false) l -> l <> [] ->
  Js.split ";" (Js.join ";" l) = l.
Proof.
  induction l as [|x l IH]; [done|]. intros Hall _.
  apply Forall_cons in Hall as [Hx Hl]. destruct l as [|y l].
  - simpl. by apply split_without_separator.
  - change (Js.join ";" (x :: y :: l)) with (x +:+ String ";" (Js.join ";" (y :: l))).
    rewrite (split_at_separator _ _ _ Hx). f_equal. by apply IH.
Qed.

Lemma join_not_empty (x y : string) (l : list string) :
  String.eqb (Js.join ";" (x :: y :: l)) "" = false.
Proof.
  change (Js.join ";" (x :: y :: l)) with (x +:+ String ";" (Js.join ";" (y :: l))).
  destruct x; reflexivity.
Qed.

(** The images of an animal come back from the file as they were, when
    no name holds a semicolon and the array is not [[""]]. *)
Lemma images_round_trip (l : list string) :
  joinable l -> CrudRouters.import_images (Some (Js.join ";" l)) = l.
Proof.
  intros [Hall Hne]. unfold CrudRouters.import_images.
  destruct l as [|x [|y l]].
  - reflexivity.
  - simpl. destruct (String.eqb x "") eqn:E.
    + apply String.eqb_eq in E. subst x. done.
    + simpl. apply Forall_cons in Hall as [Hx _]. by apply split_without_separator.
  - cbn [Js.Boolean]. rewrite join_not_empty. cbn [negb default].
    by apply split_join.
Qed.

Lemma split_length (c : ascii) (s : string) :
  length (Js.split c s) = S (count c s).
Proof.
  induction s as [|d s IH]; simpl; [reflexivity|].
  destruct (Ascii.eqb d c); simpl; [by rewrite IH|].
  destruct (Js.split c s) as [|piece pieces]; [discriminate IH | exact IH].
Qed.

Lemma count_append (c : ascii) (a b : string) :
  count c (a +:+ b) = count c a + count c b.
Proof. induction a as [|d a IH]; simpl; [reflexivity|]. rewrite IH. lia. Qed.

Lemma count_join (x : string) (l : list string) :
  count ";" (Js.join ";" (x :: l))
  = length l + list_sum (map (count ";") (x :: l)).
Proof.
  revert x. induction l as [|y l IH]; intros x.
  - simpl. lia.
  - change (Js.join ";" (x :: y :: l)) with (x +:+ String ";" (Js.join ";" (y :: l))).
    rewrite count_append. cbn [count]. rewrite Ascii.eqb_refl, IH. simpl. lia.
Qed.

Lemma count_zero (c : ascii) (s : string) : count c s = 0 -> occurs c s = false.
Proof.
  induction s as [|d s IH]; simpl; [reflexivity|].
  destruct (Ascii.eqb d c); simpl; [discriminate | exact IH].
Qed.

Lemma list_sum_zero (l : list string) :
  list_sum (map (count ";") l) = 0 -> Forall (fun s => occurs ";" s = false) l.
Proof.
  induction l as [|x l IH]; simpl; [constructor|].
  intros Hsum. constructor; [apply count_zero; lia | apply IH; lia].
Qed.

(** Only those arrays come back as they were. *)
Lemma images_round_trip_only (l : list string) :
  CrudRouters.import_images (Some (Js.join ";" l)) = l -> joinable l.
Proof.
  unfold CrudRouters.import_images. destruct l as [|x l].
  - intros _. split; [constructor | discriminate].
  - cbn [Js.Boolean default].
    destruct (String.eqb (Js.join ";" (x :: l)) "") eqn:E; [discriminate|].
    cbn [negb]. intros Hsplit. split.
    + apply list_sum_zero. apply (f_equal length) in Hsplit.
      unfold id in Hsplit. rewrite split_length, count_join in Hsplit.
      simpl in Hsplit. simpl. lia.
    + intros [= -> ->]. discriminate E.
Qed.

Lemma export_images_strings (P : Platform.t) (a : Doc) (l : list string) :
  images_of a = Some l ->
  CrudRouters.export_images P (a !! "images") = Js.join ";" l.
Proof.
  unfold images_of, CrudRouters.export_images.
  destruct (a !! "images") as [[| | | |items|]|]; try discriminate.
  destruct (forallb CrudRouters.is_string items) eqn:E; [|discriminate].
  intros [= <-]. f_equal. induction items as [|v items IH]; [reflexivity|].
  simpl in E. apply andb_true_iff in E as [Hv Hitems].
  simpl. rewrite (IH Hitems). destruct v; try discriminate. reflexivity.
Qed.

Lemma export_images_of_strings (P : Platform.t) (l : list string) :
  CrudRouters.export_images P (Some (Js.JArr (map Js.JStr l))) = Js.join ";" l.
Proof.
  unfold CrudRouters.export_images. f_equal. rewrite map_map. simpl.
  induction l as [|x l IH]; [reflexivity|]. simpl. by rewrite IH.
Qed.

Lemma lookup_row_of (H : Csv.Helper) (fields : list string) (d : Doc) (k : string) :
  Csv.row_of H fields d !! k
  = if decide (k ∈ fields) then Some (Csv.cell H (d !! k)) else None.
Proof.
  unfold Csv.row_of. induction fields as [|f fields IH].
  - cbn [map list_to_map foldr]. rewrite lookup_empty.
    by rewrite decide_False by apply not_elem_of_nil.
  - cbn [map list_to_map foldr fst snd]. destruct (decide (f = k)) as [->|Hne].
    + rewrite lookup_insert_eq. by rewrite decide_True by left.
    + rewrite lookup_insert_ne by done. rewrite IH.
      destruct (decide (k ∈ fields)).
      * by rewrite decide_True by (by right).
      * rewrite decide_False; [done|]. intros Hin.
        apply elem_of_cons in Hin as [->|Hin]; done.
Qed.

Lemma animal_row_processed (P : Platform.t) (H : Csv.Helper) (a : Doc)
  (l : list string) :
  images_of a = Some l -> joinable l ->
  <["images" :=
      Js.JArr (map Js.JStr
                 (CrudRouters.import_images
                    (Csv.row_of H CrudRouters.animal_fields
                       (<["images" := Js.JStr (CrudRouters.export_images P (a !! "images"))]> a)
                     !! "images")))]>
    (CrudRouters.as_doc
       (Csv.row_of H CrudRouters.animal_fields
          (<["images" := Js.JStr (CrudRouters.export_images P (a !! "images"))]> a)))
  = reread_animal H a.
Proof.
  intros Himg Hjoin. unfold reread_animal, reread, CrudRouters.as_doc.
  rewrite Himg. cbn [default].
  rewrite (export_images_strings P a l Himg).
  apply map_eq. intros k. destruct (decide (k = "images")) as [->|Hne].
  - rewrite !lookup_insert_eq. rewrite lookup_row_of.
    rewrite decide_True by (unfold CrudRouters.animal_fields; set_solver).
    rewrite lookup_insert_eq, (Csv.cell_string H).
    by rewrite (images_round_trip l Hjoin).
  - rewrite !lookup_insert_ne by done. rewrite !lookup_fmap, !lookup_row_of.
    by rewrite lookup_insert_ne by done.
Qed.

Lemma processed_animals (P : Platform.t) (H : Csv.Helper) (ds : list Doc) :
  Forall portable ds ->
  CrudRouters.processed Store.Animals
    (map (Csv.row_of H CrudRouters.animal_fields)
       (CrudRouters.export_data P Store.Animals ds))
  = map (reread_animal H) ds.
Proof.
  intros Hall. unfold CrudRouters.processed, CrudRouters.export_data.
  rewrite !map_map. induction Hall as [|a ds (l & Himg & Hjoin) _ IH]; [reflexivity|].
  cbn [map]. rewrite IH. f_equal. by apply (animal_row_processed P H a l).
Qed.




End CsvFacts.

(** ** The farmhouse-users collection *)

Module FarmhouseUsersFacts.
Import Express FarmhouseUsersRouter.

Lemma replace_first_keys {A B : Type} (key : A -> B) (p : A -> bool) (y : A)
  (l : list A) :
  (forall x, p x = true -> key x = key y) ->
  map key (Mongoose.replace_first p y l) = map key l.
Proof.
  intros Hp. induction l as [|x l IH]; [reflexivity|]. simpl.
  destruct (p x) eqn:E; simpl; [by rewrite (Hp x E) | by rewrite IH].
Qed.

Lemma replace_first_Forall {A : Type} (Q : A -> Prop) (p : A -> bool) (y : A)
  (l : list A) :
  Forall Q l -> Q y -> Forall Q (Mongoose.replace_first p y l).
Proof.
  intros Hl Hy. induction Hl as [|x l Hx Hl IH]; simpl; [constructor|].
  destruct (p x); constructor; assumption.
Qed.

Lemma splice1_sublist (l : list string) (idx : nat) : sublist (Js.splice1 l idx) l.
Proof.
  revert idx. induction l as [|x l IH]; intros idx; simpl; [constructor|].
  destruct idx; [by apply sublist_cons | by apply sublist_skip].
Qed.

Lemma splice1_NoDup (l : list string) (idx : nat) : NoDup l -> NoDup (Js.splice1 l idx).
Proof. intros H. eapply sublist_NoDup; [exact H | apply splice1_sublist]. Qed.

Lemma push_NoDup (l : list string) (x : string) :
  NoDup l -> x ∉ l -> NoDup (l ++ [x]).
Proof.
  intros Hl Hx. apply NoDup_app. split; [exact Hl|]. split.
  - intros y Hy Hin. apply list_elem_of_singleton in Hin. by subst y.
  - apply NoDup_singleton.
Qed.

Lemma find_Some_elem {A : Type} (p : A -> bool) (l : list A) (x : A) :
  List.find p l = Some x -> x ∈ l /\ p x = true.
Proof.
  intros H. apply find_some in H as [Hin Hp]. split; [by apply list_elem_of_In | exact Hp].
Qed.

Lemma findOne_Some (P : Platform.t) (adminId : string) (db : Store.t)
  (doc : FarmhouseUsers.t) :
  Mongoose.FarmhouseUsers_findOne P adminId db = Ok (Some doc) ->
  doc ∈ Store.farmhouseUsers db /\ FarmhouseUsers.adminId doc = adminId.
Proof.
  unfold Mongoose.FarmhouseUsers_findOne, Mongoose.castObjectId.
  destruct (Platform.isObjectId P adminId); [|discriminate]. simpl.
  destruct (Mongoose.call P Store.FarmhouseUsersC); [|discriminate]. simpl.
  intros [= Hfind]. apply find_Some_elem in Hfind as [Hin Heq].
  apply String.eqb_eq in Heq. done.
Qed.

Lemma members_NoDup (k : Kind) (db : Store.t) (doc : FarmhouseUsers.t) :
  invariant db -> doc ∈ Store.farmhouseUsers db ->
  NoDup (FarmhouseUsers.managers doc) /\ NoDup (FarmhouseUsers.assistants doc).
Proof.
  intros [_ Hmem] Hin. unfold no_duplicate_members in Hmem.
  rewrite Forall_forall in Hmem. by apply Hmem.
Qed.

(** Saving a record read by [findOne], with one of its lists changed. *)
Lemma save_update_invariant (P : Platform.t) (k : Kind) (doc : FarmhouseUsers.t)
  (l : list string) (db db' : Store.t) :
  invariant db -> doc ∈ Store.farmhouseUsers db -> NoDup l ->
  Mongoose.FarmhouseUsers_save P false (with_members k l doc) db = Ok db' ->
  invariant db'.
Proof.
  intros Hinv Hin Hl. pose proof (members_NoDup k db doc Hinv Hin) as [Hm Ha].
  destruct Hinv as [Hone Hmem].
  unfold Mongoose.FarmhouseUsers_save.
  destruct (Mongoose.call P Store.FarmhouseUsersC); [|discriminate]. simpl.
  intros [= <-]. split.
  - unfold one_record_per_admin. simpl. rewrite replace_first_keys; [exact Hone|].
    intros x Hx. by apply String.eqb_eq in Hx.
  - unfold no_duplicate_members. simpl. apply replace_first_Forall; [exact Hmem|].
    destruct k; simpl; done.
Qed.

(** Saving the first record of an admin. *)
Lemma save_new_invariant (P : Platform.t) (k : Kind) (adminId member : string)
  (db db' : Store.t) :
  invariant db ->
  Mongoose.FarmhouseUsers_save P true
    (with_members k [member] (FarmhouseUsers.mk adminId [] [])) db = Ok db' ->
  invariant db'.
Proof.
  intros [Hone Hmem]. unfold Mongoose.FarmhouseUsers_save.
  destruct (Mongoose.call P Store.FarmhouseUsersC); [|discriminate]. simpl.
  destruct (existsb _ (Store.farmhouseUsers db)) eqn:E; [discriminate|].
  intros [= <-]. split.
  - unfold one_record_per_admin. simpl. rewrite map_app. simpl.
    apply NoDup_app. split; [exact Hone|]. split; [|apply NoDup_singleton].
    intros key Hkey Hin. apply list_elem_of_singleton in Hin. subst key.
    apply (list_elem_of_fmap FarmhouseUsers.adminId) in Hkey as (d & Hd & Hdin).
    assert (Hex : existsb
              (fun d' => String.eqb (FarmhouseUsers.adminId d')
                 (FarmhouseUsers.adminId
                    (with_members k [member] (FarmhouseUsers.mk adminId [] []))))
              (Store.farmhouseUsers db) = true).
    { apply existsb_exists. exists d. split; [by apply list_elem_of_In|].
      apply String.eqb_eq. rewrite Hd. reflexivity. }
    congruence.
  - unfold no_duplicate_members. simpl. apply Forall_app. split; [exact Hmem|].
    constructor; [|constructor].
    destruct k; simpl; split; try apply NoDup_nil_2; apply NoDup_singleton.
Qed.

Lemma castId_Ok (P : Platform.t) (v : option Js.JVal) (member : string) :
  Mongoose.castId P v = Ok member -> v = Some (Js.JStr member).
Proof.
  unfold Mongoose.castId, Mongoose.castObjectId.
  destruct v as [[| | |s| |]|]; try discriminate.
  destruct (Platform.isObjectId P s); [|discriminate]. by intros [= ->].
Qed.

Lemma add_preserves (P : Platform.t) (k : Kind) (req : Request) (db : Store.t) :
  invariant db ->
  exists res db', add P k req db = Ok (res, db') /\ invariant db'.
Proof.
  intros Hinv. unfold add.
  destruct (negb (Js.truthy (body req !! field k))); [eauto|].
  destruct (Mongoose.FarmhouseUsers_findOne P (param req "adminId") db)
    as [[doc|]|err] eqn:Efind; [| |eauto].
  - apply findOne_Some in Efind as [Hin _].
    destruct (negb (included (members k doc) (body req !! field k))) eqn:Einc;
      [|simpl; destruct populate; eauto].
    destruct (Mongoose.castId P (body req !! field k)) as [member|err] eqn:Ecast;
      [|simpl; eauto].
    cbn [mbind Outcome_bind].
    destruct (Mongoose.FarmhouseUsers_save P false
                (with_members k (members k doc ++ [member]) doc) db)
      as [db'|err] eqn:Esave; [|simpl; eauto].
    assert (Hinv' : invariant db').
    { apply (save_update_invariant P k doc (members k doc ++ [member]) db db');
        [exact Hinv | exact Hin | | exact Esave].
      apply push_NoDup.
      - pose proof (members_NoDup k db doc Hinv Hin) as [Hm Ha]. by destruct k.
      - apply castId_Ok in Ecast. rewrite Ecast in Einc. simpl in Einc.
        apply negb_true_iff in Einc. intros Hmem.
        apply includes_id_elem in Hmem. congruence. }
    simpl. destruct populate; eauto.
  - destruct (Mongoose.castId P (body req !! field k)) as [member|err] eqn:Ecast;
      [|simpl; eauto].
    cbn [mbind Outcome_bind].
    destruct (Mongoose.FarmhouseUsers_save P true
                (with_members k [member]
                   (FarmhouseUsers.mk (param req "adminId") [] [])) db)
      as [db'|err] eqn:Esave; [|simpl; eauto].
    pose proof (save_new_invariant P k _ member db db' Hinv Esave) as Hinv'.
    simpl. destruct populate; eauto.
Qed.

Lemma remove_preserves (P : Platform.t) (k : Kind) (req : Request) (db : Store.t) :
  invariant db ->
  exists res db', remove P k req db = Ok (res, db') /\ invariant db'.
Proof.
  intros Hinv. unfold remove.
  destruct (Mongoose.FarmhouseUsers_findOne P (param req "adminId") db)
    as [[doc|]|err] eqn:Efind; [|eauto|eauto].
  apply findOne_Some in Efind as [Hin _].
  destruct (Js.indexOf (members k doc) (param req (field k))) as [idx|]; [|eauto].
  destruct (Mongoose.FarmhouseUsers_save P false
              (with_members k (Js.splice1 (members k doc) idx) doc) db)
    as [db'|err] eqn:Esave; [|eauto].
  assert (Hinv' : invariant db').
  { apply (save_update_invariant P k doc (Js.splice1 (members k doc) idx) db db');
      [exact Hinv | exact Hin | | exact Esave].
    apply splice1_NoDup.
    pose proof (members_NoDup k db doc Hinv Hin) as [Hm Ha]. by destruct k. }
  destruct populate; eauto.
Qed.

Lemma add_present (P : Platform.t) (k : Kind) (req : Request) (db : Store.t)
  (doc : FarmhouseUsers.t) (member : string) :
  Mongoose.FarmhouseUsers_findOne P (param req "adminId") db = Ok (Some doc) ->
  body req !! field k = Some (Js.JStr member) -> member <> "" ->
  member ∈ members k doc ->
  exists res,
    add P k req db = Ok (res, db)
    /\ (Platform.healthy P ->
        res = json (BFarmhouseUser (msg_exists k (param req "adminId") member)
                      (Some doc))).
Proof.
  intros Hfind Hbody Hne Hmem. unfold add. rewrite Hbody, Hfind.
  cbn [Js.truthy]. apply String.eqb_neq in Hne. rewrite Hne.
  cbn [negb included]. apply includes_id_elem in Hmem. rewrite Hmem.
  cbn [negb mret Outcome_ret Mongoose.text]. unfold populate.
  destruct (Mongoose.call P Store.Users) eqn:Ecall.
  - eexists. split; [reflexivity|]. intros _. reflexivity.
  - eexists. split; [reflexivity|]. intros Hh.
    rewrite (call_healthy P _ Hh) in Ecall. discriminate.
Qed.

Lemma route_preserves (chain : list Middleware) (h : Handler) (req : Request)
  (db : Store.t) :
  (forall req', exists res db', h req' db = Ok (res, db') /\ invariant db') ->
  invariant db ->
  exists res db', route chain h req db = Ok (res, db') /\ invariant db'.
Proof.
  intros Hh Hinv. revert req. induction chain as [|m chain IH]; intros req; simpl.
  - apply Hh.
  - destruct (m req) as [req'|res]; [apply IH | eauto].
Qed.


Lemma sample_invariant : invariant Sample.db.
Proof.
  split.
  - unfold one_record_per_admin. simpl. apply NoDup_singleton.
  - unfold no_duplicate_members. simpl. constructor; [|constructor]. simpl. split.
    + apply NoDup_singleton.
    + apply NoDup_cons. split; [|apply NoDup_singleton].
      intros Hin. apply list_elem_of_singleton in Hin. discriminate.
Qed.


End FarmhouseUsersFacts.

(** ** More on the alert routes and the feed *)

Module AlertExtras.
Import Express AlertFeed OwnerRoutes.

Lemma filter_sublist {A : Type} (f : A -> bool) (l : list A) :
  sublist (List.filter f l) l.
Proof.
  induction l as [|x l IH]; simpl; [constructor|].
  destruct (f x); [by apply sublist_skip | by apply sublist_cons].
Qed.

Lemma query_of_owns (r : Role) (userId : string) (fh : Farmhouse.t) :
  query_of r userId fh = true <-> owns r userId fh.
Proof.
  destruct r;
    [ apply (AlertFeedFacts.query_owns Admin)
    | apply (AlertFeedFacts.query_owns Manager)
    | apply (AlertFeedFacts.query_owns Assistant) ].
Qed.

Lemma by_owner_visible (P : Platform.t) (r : Role) (notFound : string)
  (req : Request) (db : Store.t) :
  Platform.healthy P ->
  filter (owns r (param req "userId")) (Store.farmhouses db) <> [] ->
  AlertsRouter.by_owner P (query_of r) notFound req db
  = Ok (respond 200 (BAlerts (visible r (param req "userId") db)), db).
Proof.
  intros H Hsome. unfold AlertsRouter.by_owner, Mongoose.Farmhouse_find,
    Mongoose.Alert_find.
  rewrite !(call_healthy P _ H). simpl.
  rewrite (filter_bool_prop _ (owns r (param req "userId")))
    by (intros fh; apply query_of_owns).
  destruct (filter (owns r (param req "userId")) (Store.farmhouses db))
    as [|fh fhs] eqn:E; [done|].
  cbn [length Nat.eqb mbind mret Outcome_bind Outcome_ret try_catch]. unfold json.
  do 4 f_equal. unfold visible, owned_locations. rewrite E.
  apply filter_bool_prop. intros a. apply (AlertFeedFacts.includes_located (fh :: fhs) a).
Qed.

Lemma by_owner_nothing (P : Platform.t) (r : Role) (notFound : string)
  (req : Request) (db : Store.t) :
  Platform.faults P Store.Farmhouses = None ->
  filter (owns r (param req "userId")) (Store.farmhouses db) = [] ->
  AlertsRouter.by_owner P (query_of r) notFound req db
  = Ok (respond 404 (BError notFound), db).
Proof.
  intros H Hnone. unfold AlertsRouter.by_owner, Mongoose.Farmhouse_find, Mongoose.call.
  rewrite H. simpl.
  rewrite (filter_bool_prop _ (owns r (param req "userId")))
    by (intros fh; apply query_of_owns).
  rewrite Hnone. reflexivity.
Qed.

Lemma owner_route_by_owner (P : Platform.t) (r : Role) :
  owner_route P r = AlertsRouter.by_owner P (query_of r) (owner_not_found r).
Proof. destruct r; reflexivity. Qed.

(** X1: for each of the three roles, when the user owns a farmhouse in
    that role, [GET /alerts/by-{role}/:userId] answers 200 with the list
    that the socket feed of that role and user receives, and that list
    keeps the order of the alert collection. *)
Theorem owner_routes_agree_with_feed (P : Platform.t) (r : Role) (req : Request)
  (db : Store.t) :
  Platform.healthy P ->
  (exists fh, fh ∈ Store.farmhouses db /\ owns r (param req "userId") fh) ->
  exists alerts,
    getFilteredAlerts P (role_name r) (param req "userId") db = Ok alerts
    /\ owner_route P r req db = Ok (respond 200 (BAlerts alerts), db)
    /\ sublist alerts (Store.alerts db).
Proof.
  intros H (fh0 & Hin0 & Hown0). exists (visible r (param req "userId") db).
  split; [by apply AlertFeedFacts.getFilteredAlerts_visible|]. split.
  - rewrite owner_route_by_owner. apply by_owner_visible; [exact H|].
    intros Hnil.
    assert (Hin : fh0 ∈ filter (owns r (param req "userId")) (Store.farmhouses db))
      by (apply list_elem_of_filter; done).
    rewrite Hnil in Hin. by apply not_elem_of_nil in Hin.
  - unfold visible. apply sublist_filter.
Qed.

Lemma owner_routes_agree_with_feed_witness :
  let req := Sample.request None [("userId", "s2")] [] in
  exists alerts,
    getFilteredAlerts Sample.platform "assistant" "s2" Sample.db = Ok alerts
    /\ AlertsRouter.by_assistant Sample.platform req Sample.db
       = Ok (respond 200 (BAlerts alerts), Sample.db)
    /\ sublist alerts (Store.alerts Sample.db).
Proof.
  intros req.
  apply (owner_routes_agree_with_feed Sample.platform Assistant req Sample.db).
  - intros c. reflexivity.
  - exists Sample.lahore. split.
    + unfold Sample.db. simpl. set_solver.
    + simpl. change (param req "userId") with "s2". set_solver.
Defined.

(** X2: when the user owns no farmhouse in the role, the route answers
    404 with the message of the role while the socket feed is the empty
    array, and neither reads the alert collection (only the farmhouse
    query has to return); for a role string other than the three, the
    feed is empty without any query. *)
Theorem no_farmhouse_404_and_empty_feed (P : Platform.t) (r : Role) (req : Request)
  (db : Store.t) :
  (Platform.faults P Store.Farmhouses = None ->
   filter (owns r (param req "userId")) (Store.farmhouses db) = [] ->
   owner_route P r req db = Ok (respond 404 (BError (owner_not_found r)), db)
   /\ getFilteredAlerts P (role_name r) (param req "userId") db = Ok [])
  /\ (forall role userId,
        role ∉ ["admin"; "manager"; "assistant"] ->
        getFilteredAlerts P role userId db = Ok []).
Proof.
  split.
  - intros Hf Hnone. split.
    + rewrite owner_route_by_owner. by apply by_owner_nothing.
    + unfold getFilteredAlerts.
      assert (Hfind : forall q, Mongoose.Farmhouse_find P q db
                                = Ok (List.filter q (Store.farmhouses db))).
      { intros q. unfold Mongoose.Farmhouse_find, Mongoose.call. by rewrite Hf. }
      rewrite !Hfind.
      assert (Hq : List.filter (query_of r (param req "userId")) (Store.farmhouses db)
                   = []).
      { rewrite (filter_bool_prop _ (owns r (param req "userId")))
          by (intros fh; apply query_of_owns). exact Hnone. }
      destruct r; simpl in Hq |- *; rewrite Hq; reflexivity.
  - intros role userId Hrole. unfold getFilteredAlerts.
    assert (Ha : String.eqb role "admin" = false)
      by (apply String.eqb_neq; intros ->; apply Hrole; set_solver).
    assert (Hm : String.eqb role "manager" = false)
      by (apply String.eqb_neq; intros ->; apply Hrole; set_solver).
    assert (Hs : String.eqb role "assistant" = false)
      by (apply String.eqb_neq; intros ->; apply Hrole; set_solver).
    rewrite Ha, Hm, Hs. reflexivity.
Qed.

Lemma no_farmhouse_404_and_empty_feed_witness :
  let req := Sample.request None [("userId", "nobody")] [] in
  AlertsRouter.by_manager Sample.offline_alerts req Sample.db
  = Ok (respond 404 (BError "No farmhouses found for this manager"), Sample.db)
  /\ getFilteredAlerts Sample.offline_alerts "manager" "nobody" Sample.db = Ok []
  /\ getFilteredAlerts Sample.offline "superadmin" "a1" Sample.db = Ok [].
Proof.
  intros req.
  destruct (no_farmhouse_404_and_empty_feed Sample.offline_alerts Manager req Sample.db)
    as [Hnone _].
  destruct (no_farmhouse_404_and_empty_feed Sample.offline Manager req Sample.db)
    as [_ Hrole].
  destruct Hnone as [Hroute Hfeed]; [reflexivity | reflexivity |].
  split; [exact Hroute|]. split; [exact Hfeed|].
  apply Hrole. intros Hin.
  repeat (apply elem_of_cons in Hin as [Hin|Hin]; [discriminate Hin|]).
  by apply not_elem_of_nil in Hin.
Defined.

(** *** Writes of the alert router *)

Lemma remove_first_sublist {A : Type} (p : A -> bool) (l : list A) :
  sublist (Mongoose.remove_first p l) l.
Proof.
  induction l as [|x l IH]; simpl; [constructor|].
  destruct (p x); [by apply sublist_cons | by apply sublist_skip].
Qed.

Lemma remove_first_length {A : Type} (p : A -> bool) (l : list A) (x : A) :
  List.find p l = Some x ->
  S (length (Mongoose.remove_first p l)) = length l.
Proof.
  induction l as [|y l IH]; simpl; [discriminate|].
  destruct (p y); [reflexivity|]. intros Hfind. simpl. by rewrite (IH Hfind).
Qed.

Lemma remove_first_keeps {A : Type} (p : A -> bool) (l : list A) (y : A) :
  y ∈ l -> p y = false -> y ∈ Mongoose.remove_first p l.
Proof.
  induction l as [|x l IH]; simpl; [by intros H; apply not_elem_of_nil in H|].
  intros Hin Hp. apply elem_of_cons in Hin as [->|Hin].
  - rewrite Hp. by left.
  - destruct (p x); [exact Hin | right; by apply IH].
Qed.

Lemma remove_first_key_gone {A : Type} (key : A -> string) (k : string) (l : list A) :
  NoDup (map key l) ->
  forall y, y ∈ Mongoose.remove_first (fun x => String.eqb (key x) k) l -> key y <> k.
Proof.
  induction l as [|x l IH]; simpl; [by intros _ y H; apply not_elem_of_nil in H|].
  intros Hnd y Hy. apply NoDup_cons in Hnd as [Hx Hnd].
  destruct (String.eqb (key x) k) eqn:E.
  - apply String.eqb_eq in E. intros Hk. apply Hx. rewrite E, <- Hk.
    by apply (list_elem_of_fmap_2 key).
  - apply elem_of_cons in Hy as [->|Hy]; [by apply String.eqb_neq | by apply IH].
Qed.

Lemma find_none_all {A : Type} (p : A -> bool) (l : list A) :
  List.find p l = None <-> forall x, x ∈ l -> p x = false.
Proof.
  split.
  - intros Hfind x Hin. apply list_elem_of_In in Hin. by apply (find_none p l Hfind).
  - intros Hall. induction l as [|x l IH]; [reflexivity|]. simpl.
    rewrite (Hall x) by (by left). apply IH. intros y Hy. apply Hall. by right.
Qed.

(** X3: [POST /alerts] with a string location [L] stores one alert at the
    end of the collection and answers 201 with it; the list visible to a
    user in a role then is the former list followed by the new alert if
    [L] is the non-empty location of a farmhouse the user owns in that
    role, and the former list otherwise. *)
Theorem posted_alert_reaches_feed (P : Platform.t) (req : Request) (db : Store.t)
  (title category description : option string) (L : string) :
  Platform.healthy P ->
  Mongoose.castString P (body req !! "title") = Ok title ->
  Mongoose.castString P (body req !! "category") = Ok category ->
  body req !! "location" = Some (Js.JStr L) ->
  Mongoose.castString P (body req !! "description") = Ok description ->
  let alert := Alert.mk (Platform.newId P db) title category (Some L) description in
  Platform.alertValidators P alert = None ->
  let db' := Store.set_alerts (Store.alerts db ++ [alert]) db in
  AlertsRouter.post_handler P req db = Ok (respond 201 (BAlert alert), db')
  /\ forall r userId,
       getFilteredAlerts P (role_name r) userId db'
       = Ok (visible r userId db
             ++ (if decide (L ∈ owned_locations r userId db) then [alert] else [])).
Proof.
  intros H Ht Hc Hl Hd alert Hv db'. split.
  - unfold AlertsRouter.post_handler. rewrite Ht, Hc, Hl, Hd. simpl.
    unfold Mongoose.Alert_save. fold alert. rewrite Hv.
    rewrite (call_healthy P _ H). reflexivity.
  - intros r userId. rewrite (AlertFeedFacts.getFilteredAlerts_visible P r userId db' H).
    f_equal. unfold visible. simpl. rewrite filter_app. f_equal.
    change (owned_locations r userId db') with (owned_locations r userId db).
    rewrite filter_cons, filter_nil.
    destruct (decide (L ∈ owned_locations r userId db)) as [Hin|Hout].
    + rewrite decide_True; [reflexivity|]. exists L. done.
    + rewrite decide_False; [reflexivity|]. intros (l & [= <-] & Hin). done.
Qed.

Lemma posted_alert_reaches_feed_witness :
  let req := Sample.request None []
               [("title", Js.JStr "Storm"); ("location", Js.JStr "Lahore")] in
  let alert := Alert.mk "64a1b2c3d4e5f6a7b8c9d0ff" (Some "Storm") None
                 (Some "Lahore") None in
  AlertsRouter.post_handler Sample.platform req Sample.db
  = Ok (respond 201 (BAlert alert),
        Store.set_alerts (Store.alerts Sample.db ++ [alert]) Sample.db)
  /\ getFilteredAlerts Sample.platform "manager" "m1"
       (Store.set_alerts (Store.alerts Sample.db ++ [alert]) Sample.db)
     = Ok [Sample.flood; alert].
Proof.
  intros req alert.
  destruct (posted_alert_reaches_feed Sample.platform req Sample.db
              (Some "Storm") None None "Lahore") as [Hpost Hfeed];
    try reflexivity.
  - intros c. reflexivity.
  - split; [exact Hpost|]. apply (Hfeed Manager "m1").
Defined.





(** X6: [GET /alerts] answers with the alerts whose location is the
    [farmhouse] of the user, or, when that is unset or empty, the
    [location] of the user; with neither it answers 400, and without a
    decoded user the [TypeError] is answered as a 500. *)
Theorem alerts_of_own_location (P : Platform.t) (req : Request) (db : Store.t) :
  Platform.healthy P ->
  (user req = None ->
   exists error, AlertsRouter.get_handler P req db = Ok (respond 500 (BError error), db))
  /\ (forall u, user req = Some u ->
      Js.Boolean (farmhouse u) = false -> Js.Boolean (location u) = false ->
      AlertsRouter.get_handler P req db
      = Ok (respond 400 (BError "User farmhouse location not set"), db))
  /\ (forall u place, user req = Some u -> place <> "" ->
      farmhouse u = Some place
      \/ (Js.Boolean (farmhouse u) = false /\ location u = Some place) ->
      exists alerts,
        AlertsRouter.get_handler P req db = Ok (json (BAlerts alerts), db)
        /\ forall a, a ∈ alerts <-> a ∈ Store.alerts db /\ Alert.location a = Some place).
Proof.
  intros H. split; [|split].
  - intros Hu. unfold AlertsRouter.get_handler, user_of. rewrite Hu. eexists; reflexivity.
  - intros u Hu Hf Hl. unfold AlertsRouter.get_handler, user_of. rewrite Hu. simpl.
    rewrite Hf, Hl. reflexivity.
  - intros u place Hu Hne Hplace.
    assert (Hb : Js.Boolean (Some place) = true).
    { simpl. apply negb_true_iff. by apply String.eqb_neq. }
    assert (Hloc : (if Js.Boolean (farmhouse u) then farmhouse u else location u)
                   = Some place).
    { destruct Hplace as [Hf|[Hf Hl]]; [by rewrite Hf, Hb | by rewrite Hf]. }
    exists (List.filter (fun a => Js.same_value (Alert.location a) (Some place))
              (Store.alerts db)).
    split.
    + unfold AlertsRouter.get_handler, user_of. rewrite Hu. simpl. rewrite Hloc, Hb.
      simpl. unfold Mongoose.Alert_find_location. rewrite (call_healthy P _ H).
      reflexivity.
    + intros a. rewrite list_elem_of_In, filter_In, <- list_elem_of_In.
      by rewrite same_value_Some.
Qed.

Lemma alerts_of_own_location_witness :
  let u := mkUser "m1" "manager" (Some "Lahore") (Some "Multan") in
  let req := Sample.request (Some u) [] [] in
  exists alerts,
    AlertsRouter.get_handler Sample.platform req Sample.db
    = Ok (json (BAlerts alerts), Sample.db)
    /\ forall a, a ∈ alerts <-> a ∈ Store.alerts Sample.db
                               /\ Alert.location a = Some "Lahore".
Proof.
  intros u req.
  destruct (alerts_of_own_location Sample.platform req Sample.db) as (_ & _ & Hplace).
  - intros c. reflexivity.
  - apply (Hplace u "Lahore"); [reflexivity | discriminate | by left].
Defined.

End AlertExtras.

(** ** More on the farmhouse router *)

Module FarmhouseExtras.
Import Express AlertFeed OwnerRoutes.

Lemma farmhouse_route_by_role (P : Platform.t) (r : Role) :
  farmhouse_route P r
  = FarmhouseRouter.by_role P (role_name r) (farmhouse_denied r) (query_of r).
Proof. destruct r; reflexivity. Qed.

(** X7: [GET /farmhouse/admin], [/manager] and [/assistant] answer 403
    to a user of another role and otherwise 200 with the farmhouses the
    user owns in that role, in the order of the collection; without a
    decoded user the exception escapes the handler and nothing is
    answered. *)
Theorem farmhouses_of_role (P : Platform.t) (r : Role) (req : Request) (db : Store.t) :
  (user req = None -> exists error, farmhouse_route P r req db = Throw error)
  /\ (forall u, user req = Some u -> Express.role u <> role_name r ->
      farmhouse_route P r req db = Ok (respond 403 (BError (farmhouse_denied r)), db))
  /\ (forall u, user req = Some u -> Express.role u = role_name r -> Platform.healthy P ->
      farmhouse_route P r req db
      = Ok (json (BFarmhouses (filter (owns r (id u)) (Store.farmhouses db))), db)).
Proof.
  rewrite farmhouse_route_by_role. unfold FarmhouseRouter.by_role, user_of.
  split; [|split].
  - intros ->. eexists; reflexivity.
  - intros u -> Hr. simpl. apply String.eqb_neq in Hr. by rewrite Hr.
  - intros u -> Hr H. simpl. rewrite Hr, String.eqb_refl. simpl.
    unfold Mongoose.Farmhouse_find. rewrite (call_healthy P _ H). simpl.
    rewrite (filter_bool_prop _ (owns r (id u)))
      by (intros fh; apply AlertExtras.query_of_owns).
    reflexivity.
Qed.

Lemma farmhouses_of_role_witness :
  let manager := mkUser "m1" "manager" None None in
  let req := Sample.request (Some manager) [] [] in
  farmhouse_route Sample.platform Assistant req Sample.db
  = Ok (respond 403 (BError "Access denied. Assistants only."), Sample.db)
  /\ farmhouse_route Sample.platform Manager req Sample.db
     = Ok (json (BFarmhouses [Sample.lahore]), Sample.db).
Proof.
  intros manager req.
  destruct (farmhouses_of_role Sample.platform Assistant req Sample.db)
    as (_ & Hdenied & _).
  destruct (farmhouses_of_role Sample.platform Manager req Sample.db)
    as (_ & _ & Hown).
  split.
  - apply (Hdenied manager); [reflexivity | discriminate].
  - rewrite (Hown manager); [reflexivity | reflexivity | reflexivity |].
    intros c. reflexivity.
Defined.



Lemma find_app_last {A : Type} (p : A -> bool) (l : list A) (x : A) :
  (forall y, y ∈ l -> p y = false) -> p x = true ->
  List.find p (l ++ [x]) = Some x
  /\ Mongoose.remove_first p (l ++ [x]) = l.
Proof.
  intros Hl Hx. induction l as [|y l IH]; simpl.
  - by rewrite Hx.
  - rewrite (Hl y) by (by left).
    destruct IH as [Hf Hr]; [intros z Hz; apply Hl; by right|].
    by rewrite Hf, Hr.
Qed.



Lemma remove_first_keeps_others {A : Type} (p : A -> bool) (l : list A) (x y : A) :
  List.find p l = Some x -> y ∈ l -> y <> x -> y ∈ Mongoose.remove_first p l.
Proof.
  induction l as [|z l IH]; simpl; [discriminate|].
  destruct (p z) eqn:E.
  - intros [= ->] Hy Hne. apply elem_of_cons in Hy as [->|Hy]; done.
  - intros Hfind Hy Hne. apply elem_of_cons in Hy as [->|Hy]; [by left|].
    right. by apply IH.
Qed.



End FarmhouseExtras.

(** ** More on the farmhouse-users routes *)

Module FarmhouseUsersExtras.
Import Express FarmhouseUsersRouter FarmhouseUsersSpec.

Lemma with_members_same (k : Kind) (d : FarmhouseUsers.t) :
  with_members k (members k d) d = d.
Proof. destruct k, d; reflexivity. Qed.

Lemma with_members_twice (k : Kind) (l l' : list string) (d : FarmhouseUsers.t) :
  with_members k l (with_members k l' d) = with_members k l d.
Proof. destruct k; reflexivity. Qed.

Lemma members_with_members (k : Kind) (l : list string) (d : FarmhouseUsers.t) :
  members k (with_members k l d) = l.
Proof. destruct k; reflexivity. Qed.

Lemma adminId_with_members (k : Kind) (l : list string) (d : FarmhouseUsers.t) :
  FarmhouseUsers.adminId (with_members k l d) = FarmhouseUsers.adminId d.
Proof. destruct k; reflexivity. Qed.

Lemma replace_first_found {A : Type} (p : A -> bool) (l : list A) (x : A) :
  List.find p l = Some x -> Mongoose.replace_first p x l = l.
Proof.
  induction l as [|y l IH]; simpl; [discriminate|].
  destruct (p y); [by intros [= ->] | intros Hf; by rewrite (IH Hf)].
Qed.

Lemma replace_first_twice {A : Type} (p : A -> bool) (l : list A) (x y : A) :
  p y = true ->
  Mongoose.replace_first p x (Mongoose.replace_first p y l)
  = Mongoose.replace_first p x l.
Proof.
  intros Hy. induction l as [|z l IH]; simpl; [reflexivity|].
  destruct (p z) eqn:E; simpl; [by rewrite Hy | by rewrite E, IH].
Qed.

Lemma find_replace_first {A : Type} (p : A -> bool) (l : list A) (x y : A) :
  List.find p l = Some x -> p y = true ->
  List.find p (Mongoose.replace_first p y l) = Some y.
Proof.
  intros Hf Hy. induction l as [|z l IH]; simpl in *; [discriminate|].
  destruct (p z) eqn:E; simpl; [by rewrite Hy | rewrite E; by apply IH].
Qed.

Lemma indexOf_push (l : list string) (x : string) :
  x ∉ l -> Js.indexOf (l ++ [x]) x = Some (length l)
           /\ Js.splice1 (l ++ [x]) (length l) = l.
Proof.
  induction l as [|y l IH]; simpl; intros Hx.
  - by rewrite String.eqb_refl.
  - apply not_elem_of_cons in Hx as [Hne Hx]. apply String.eqb_neq in Hne.
    rewrite Hne. destruct (IH Hx) as [Hi Hs]. by rewrite Hi, Hs.
Qed.

Lemma findOne_find (P : Platform.t) (adminId : string) (db : Store.t) :
  Platform.healthy P -> Platform.isObjectId P adminId = true ->
  Mongoose.FarmhouseUsers_findOne P adminId db
  = Ok (List.find (fun d => String.eqb (FarmhouseUsers.adminId d) adminId)
          (Store.farmhouseUsers db)).
Proof.
  intros H Hid. unfold Mongoose.FarmhouseUsers_findOne, Mongoose.castObjectId.
  rewrite Hid. simpl. by rewrite (call_healthy P _ H).
Qed.



Lemma findOne_cases (P : Platform.t) (adminId : string) (db : Store.t) :
  (exists e, Mongoose.FarmhouseUsers_findOne P adminId db = Throw e)
  \/ Mongoose.FarmhouseUsers_findOne P adminId db
     = Ok (List.find (is_record_of adminId) (Store.farmhouseUsers db)).
Proof.
  unfold Mongoose.FarmhouseUsers_findOne, Mongoose.castObjectId.
  destruct (Platform.isObjectId P adminId); simpl; [|eauto].
  destruct (Mongoose.call P Store.FarmhouseUsersC); simpl; eauto.
Qed.

Lemma save_existing_cases (P : Platform.t) (k : Kind) (l : list string)
  (doc : FarmhouseUsers.t) (db : Store.t) :
  (exists e, Mongoose.FarmhouseUsers_save P false (with_members k l doc) db = Throw e)
  \/ Mongoose.FarmhouseUsers_save P false (with_members k l doc) db
     = Ok (Store.set_farmhouseUsers
             (Mongoose.replace_first (is_record_of (FarmhouseUsers.adminId doc))
                (with_members k l doc) (Store.farmhouseUsers db)) db).
Proof.
  unfold Mongoose.FarmhouseUsers_save.
  destruct (Mongoose.call P Store.FarmhouseUsersC); simpl; [|eauto].
  right. rewrite adminId_with_members. reflexivity.
Qed.

Lemma find_record_key (adminId : string) (l : list FarmhouseUsers.t)
  (doc : FarmhouseUsers.t) :
  List.find (is_record_of adminId) l = Some doc -> FarmhouseUsers.adminId doc = adminId.
Proof.
  intros Hf. apply FarmhouseUsersFacts.find_Some_elem in Hf as [_ Hk].
  by apply String.eqb_eq in Hk.
Qed.

Lemma add_written (P : Platform.t) (k : Kind) (req : Request) (db : Store.t) :
  exists res db',
    add P k req db = Ok (res, db') /\ written (param req "adminId") k db db'.
Proof.
  unfold add. destruct (negb (Js.truthy (body req !! field k)));
    [eexists _, _; split; [reflexivity | by left]|].
  destruct (findOne_cases P (param req "adminId") db) as [[e ->]| ->];
    [eexists _, _; split; [reflexivity | by left]|].
  destruct (List.find (is_record_of (param req "adminId")) (Store.farmhouseUsers db))
    as [doc|] eqn:Hfind.
  - destruct (negb (included (members k doc) (body req !! field k)));
      [|simpl; destruct (populate P); eexists _, _; (split; [reflexivity | by left])].
    destruct (Mongoose.castId P (body req !! field k)) as [member|e];
      [|simpl; eexists _, _; split; [reflexivity | by left]].
    cbn [mbind Outcome_bind].
    destruct (save_existing_cases P k (members k doc ++ [member]) doc db)
      as [[e ->]| ->]; [simpl; eexists _, _; split; [reflexivity | by left]|].
    rewrite (find_record_key _ _ _ Hfind). simpl.
    destruct (populate P); eexists _, _;
      (split; [reflexivity | right; left; eauto]).
  - destruct (Mongoose.castId P (body req !! field k)) as [member|e];
      [|simpl; eexists _, _; split; [reflexivity | by left]].
    cbn [mbind Outcome_bind]. unfold Mongoose.FarmhouseUsers_save.
    destruct (Mongoose.call P Store.FarmhouseUsersC);
      [|simpl; eexists _, _; split; [reflexivity | by left]].
    cbn [mbind Outcome_bind].
    destruct (existsb _ (Store.farmhouseUsers db));
      [simpl; eexists _, _; split; [reflexivity | by left]|].
    simpl. destruct (populate P); eexists _, _;
      (split; [reflexivity | right; right; eauto]).
Qed.

Lemma remove_written (P : Platform.t) (k : Kind) (req : Request) (db : Store.t) :
  exists res db',
    remove P k req db = Ok (res, db') /\ written (param req "adminId") k db db'.
Proof.
  unfold remove.
  destruct (findOne_cases P (param req "adminId") db) as [[e ->]| ->];
    [eexists _, _; split; [reflexivity | by left]|].
  destruct (List.find (is_record_of (param req "adminId")) (Store.farmhouseUsers db))
    as [doc|] eqn:Hfind; [|eexists _, _; split; [reflexivity | by left]].
  destruct (Js.indexOf (members k doc) (param req (field k))) as [idx|];
    [|eexists _, _; split; [reflexivity | by left]].
  destruct (save_existing_cases P k (Js.splice1 (members k doc) idx) doc db)
    as [[e ->]| ->]; [eexists _, _; split; [reflexivity | by left]|].
  rewrite (find_record_key _ _ _ Hfind).
  destruct (populate P); eexists _, _; (split; [reflexivity | right; left; eauto]).
Qed.

Lemma replace_first_others {A : Type} (p : A -> bool) (y : A) (l : list A) :
  p y = true ->
  List.filter (fun x => negb (p x)) (Mongoose.replace_first p y l)
  = List.filter (fun x => negb (p x)) l.
Proof.
  intros Hy. induction l as [|x l IH]; simpl; [reflexivity|].
  destruct (p x) eqn:E; simpl; [by rewrite Hy | by rewrite E, IH].
Qed.

Lemma replace_first_same_image {A B : Type} (f : A -> B) (p : A -> bool)
  (x y : A) (l : list A) :
  List.find p l = Some x -> f y = f x ->
  map f (Mongoose.replace_first p y l) = map f l.
Proof.
  intros Hf Hxy. induction l as [|z l IH]; simpl in *; [discriminate|].
  destruct (p z); simpl; [injection Hf as ->; by rewrite Hxy | by rewrite IH].
Qed.

Lemma members_other (k : Kind) (l : list string) (d : FarmhouseUsers.t) :
  members (other k) (with_members k l d) = members (other k) d.
Proof. destruct k; reflexivity. Qed.



Lemma indexOf_None (l : list string) (x : string) :
  Js.indexOf l x = None <-> x ∉ l.
Proof.
  induction l as [|y l IH]; simpl.
  - split; [intros _; apply not_elem_of_nil | done].
  - destruct (String.eqb x y) eqn:E.
    + apply String.eqb_eq in E. subst y. split; [discriminate|].
      intros Hout. exfalso. apply Hout. by left.
    + apply String.eqb_neq in E. rewrite not_elem_of_cons, <- IH.
      destruct (Js.indexOf l x); simpl; split; try done.
      intros [_ ?]. done.
Qed.

Lemma indexOf_splice (l : list string) (m : string) (idx : nat) :
  NoDup l -> Js.indexOf l m = Some idx ->
  forall x, x ∈ Js.splice1 l idx <-> x ∈ l /\ x <> m.
Proof.
  revert idx. induction l as [|y l IH]; simpl; intros idx Hnd Hi x; [discriminate|].
  apply NoDup_cons in Hnd as [Hy Hnd]. destruct (String.eqb m y) eqn:E.
  - apply String.eqb_eq in E. subst y. injection Hi as <-.
    rewrite elem_of_cons. split.
    + intros Hx. split; [by right|]. intros ->. done.
    + intros [[->|Hx] Hne]; done.
  - apply String.eqb_neq in E.
    destruct (Js.indexOf l m) as [i|] eqn:Ei; [|discriminate].
    injection Hi as <-. simpl. rewrite !elem_of_cons, (IH i Hnd eq_refl x).
    split.
    + intros [->|[Hx Hne]]; [split; [by left | done] | split; [by right | done]].
    + intros [[->|Hx] Hne]; [by left | right; done].
Qed.



End FarmhouseUsersExtras.

(** ** More on the CRUD routers *)

Module CrudExtras.
Import Express.

Lemma lookup_pick (fields : list string) (b : Doc) (f : string) :
  CrudRouters.pick fields b !! f = if decide (f ∈ fields) then b !! f else None.
Proof.
  unfold CrudRouters.pick. induction fields as [|x fields IH].
  - cbn [omap list_omap list_to_map foldr]. rewrite lookup_empty.
    by rewrite decide_False by apply not_elem_of_nil.
  - cbn [omap list_omap]. destruct (b !! x) as [v|] eqn:Ex;
      cbn [fmap option_fmap option_map].
    + cbn [list_to_map foldr fst snd]. destruct (decide (x = f)) as [->|Hne].
      * rewrite lookup_insert_eq. by rewrite decide_True by left.
      * rewrite lookup_insert_ne by done. rewrite IH.
        destruct (decide (f ∈ fields)).
        -- by rewrite decide_True by (by right).
        -- rewrite decide_False; [done|]. intros Hin.
           apply elem_of_cons in Hin as [->|Hin]; done.
    + rewrite IH. destruct (decide (f ∈ fields)).
      * by rewrite decide_True by (by right).
      * destruct (decide (f = x)) as [->|Hne].
        -- by rewrite decide_True by left.
        -- rewrite decide_False; [done|]. intros Hin.
           apply elem_of_cons in Hin as [->|Hin]; done.
Qed.

Lemma create_201 (P : Platform.t) (c : Store.DocCollection) (message : string)
  (doc : Doc) (db : Store.t) (res : Response) (db' : Store.t) :
  CrudRouters.create P c message doc db = Ok (res, db') -> status res = 201 ->
  let stored := <["_id" := Js.JStr (Platform.newId P db)]> doc in
  res = respond 201 (BDoc message stored)
  /\ db' = Store.set_docs c (Store.docs db c ++ [stored]) db
  /\ Mongoose.validate P c doc = Ok tt.
Proof.
  intros Hres Hst stored. subst stored. unfold CrudRouters.create, Mongoose.save in Hres.
  destruct (Mongoose.validate P c doc) as [[]|e]; simpl in Hres;
    [|injection Hres as <- <-; discriminate].
  destruct (Mongoose.call P (Store.Docs c)); simpl in Hres;
    [|injection Hres as <- <-; discriminate].
  by injection Hres as <- <-.
Qed.

Ltac rejected Hres Hst :=
  unfold CrudRouters.bad_request in Hres; injection Hres as <- <-; discriminate Hst.



Lemma not_natural_false (P : Platform.t) (v : option Js.JVal) :
  CrudRouters.not_natural P v = false ->
  exists q, Mongoose.to_number P v = Some q /\ (0 <= q)%Q.
Proof.
  unfold CrudRouters.not_natural, Mongoose.isNaN, Mongoose.lt_zero.
  destruct (Mongoose.to_number P v) as [q|]; [|discriminate]. simpl.
  intros Hq. exists q. split; [reflexivity|].
  apply negb_false_iff in Hq. by apply Qle_bool_iff.
Qed.

Lemma stored_fields (P : Platform.t) (fields : list string) (b : Doc) (db : Store.t) :
  let stored := <["_id" := Js.JStr (Platform.newId P db)]> (CrudRouters.pick fields b) in
  stored !! "_id" = Some (Js.JStr (Platform.newId P db))
  /\ (forall f, f ∈ fields -> f <> "_id" -> stored !! f = b !! f)
  /\ (forall f, f ∉ fields -> f <> "_id" -> stored !! f = None).
Proof.
  intros stored. split; [apply lookup_insert_eq|]. split.
  - intros f Hf Hne. unfold stored. rewrite lookup_insert_ne by done.
    rewrite lookup_pick. by rewrite decide_True.
  - intros f Hf Hne. unfold stored. rewrite lookup_insert_ne by done.
    rewrite lookup_pick. by rewrite decide_False.
Qed.



(** *** Deleting *)

Lemma docs_set_same (c : Store.DocCollection) (ds : list Doc) (db : Store.t) :
  Store.docs (Store.set_docs c ds db) c = ds.
Proof. simpl. by rewrite decide_True. Qed.

Lemma docs_set_other (c c' : Store.DocCollection) (ds : list Doc) (db : Store.t) :
  c' <> c -> Store.docs (Store.set_docs c ds db) c' = Store.docs db c'.
Proof. intros Hne. simpl. by rewrite decide_False. Qed.



(** X17: a document created through the [try] block of a [POST /] and
    then deleted through [DELETE /:id] with the identifier it was given
    leaves every collection as it was before the creation, when that
    identifier is new to the collection. *)
Theorem create_then_delete_record (P : Platform.t) (c : Store.DocCollection)
  (message : string) (doc : Doc) (del : Request) (db : Store.t) :
  Platform.healthy P ->
  Mongoose.validate P c doc = Ok tt ->
  Platform.isObjectId P (Platform.newId P db) = true ->
  (forall d, d ∈ Store.docs db c -> Mongoose.has_id (Platform.newId P db) d = false) ->
  param del "id" = Platform.newId P db ->
  let stored := <["_id" := Js.JStr (Platform.newId P db)]> doc in
  exists db1 db2,
    CrudRouters.create P c message doc db = Ok (respond 201 (BDoc message stored), db1)
    /\ CrudRouters.delete P c del db1
       = Ok (json (BDoc (CrudRouters.deleted c) stored), db2)
    /\ (forall c', Store.docs db2 c' = Store.docs db c')
    /\ Store.alerts db2 = Store.alerts db
    /\ Store.farmhouses db2 = Store.farmhouses db
    /\ Store.farmhouseUsers db2 = Store.farmhouseUsers db.
Proof.
  intros H Hv Hoid Hfresh Hparam stored.
  assert (Hid : Mongoose.has_id (Platform.newId P db) stored = true).
  { unfold Mongoose.has_id, stored. rewrite lookup_insert_eq. apply String.eqb_refl. }
  destruct (FarmhouseExtras.find_app_last (Mongoose.has_id (Platform.newId P db))
              (Store.docs db c) stored Hfresh Hid) as [Hfind Hremove].
  eexists _, _. split; [|split].
  - unfold CrudRouters.create, Mongoose.save. rewrite Hv. simpl.
    rewrite (call_healthy P _ H). reflexivity.
  - unfold CrudRouters.delete, Mongoose.findByIdAndDelete, Mongoose.castObjectId.
    rewrite Hparam, Hoid. cbn [mbind Outcome_bind]. rewrite (call_healthy P _ H).
    cbn [mbind Outcome_bind mret Outcome_ret]. rewrite docs_set_same. fold stored.
    rewrite Hfind. reflexivity.
  - fold stored. rewrite Hremove. split; [|done]. intros c'.
    destruct (decide (c' = c)) as [->|Hne].
    + by rewrite docs_set_same.
    + by rewrite !docs_set_other.
Qed.

Lemma create_then_delete_record_witness :
  let del := Sample.request None [("id", "64a1b2c3d4e5f6a7b8c9d0ff")] [] in
  exists db1 db2,
    CrudRouters.create Sample.platform Store.Breedings
      "Breeding record created successfully" (list_to_map Sample.mating) Sample.db
    = Ok (respond 201
            (BDoc "Breeding record created successfully"
               (<["_id" := Js.JStr "64a1b2c3d4e5f6a7b8c9d0ff"]>
                  (list_to_map Sample.mating))), db1)
    /\ CrudRouters.delete Sample.platform Store.Breedings del db1
       = Ok (json (BDoc "Breeding record deleted successfully"
                     (<["_id" := Js.JStr "64a1b2c3d4e5f6a7b8c9d0ff"]>
                        (list_to_map Sample.mating))), db2)
    /\ Store.docs db2 Store.Breedings = [].
Proof.
  intros del.
  destruct (create_then_delete_record Sample.platform Store.Breedings
              "Breeding record created successfully" (list_to_map Sample.mating)
              del Sample.db) as (db1 & db2 & Hc & Hd & Hdocs & _).
  - intros c. reflexivity.
  - reflexivity.
  - reflexivity.
  - intros d Hd. by apply not_elem_of_nil in Hd.
  - reflexivity.
  - exists db1, db2. split; [exact Hc|]. split; [exact Hd|]. apply Hdocs.
Defined.

(** *** Importing *)

Lemma store_all_appends (P : Platform.t) (c : Store.DocCollection) (ds : list Doc)
  (db : Store.t) :
  Store.docs (Mongoose.store_all P c ds db).2 c
  = Store.docs db c ++ (Mongoose.store_all P c ds db).1
  /\ length (Mongoose.store_all P c ds db).1 = length ds
  /\ (forall c', c' <> c ->
      Store.docs (Mongoose.store_all P c ds db).2 c' = Store.docs db c')
  /\ Store.alerts (Mongoose.store_all P c ds db).2 = Store.alerts db
  /\ Store.farmhouses (Mongoose.store_all P c ds db).2 = Store.farmhouses db.
Proof.
  revert db. induction ds as [|d ds IH]; intros db.
  - simpl. rewrite app_nil_r. done.
  - cbn [Mongoose.store_all].
    set (stored := <["_id" := Js.JStr (Platform.newId P db)]> d).
    specialize (IH (Store.set_docs c (Store.docs db c ++ [stored]) db)).
    destruct (Mongoose.store_all P c ds
                (Store.set_docs c (Store.docs db c ++ [stored]) db))
      as [inserted db'] eqn:E.
    cbn [fst snd] in *. destruct IH as (Hdocs & Hlen & Hother & Ha & Hf).
    rewrite docs_set_same in Hdocs. split; [by rewrite Hdocs, <- app_assoc|].
    split; [simpl; by rewrite Hlen|]. split; [|done].
    intros c' Hne. rewrite (Hother c' Hne). by apply docs_set_other.
Qed.



(** *** The images cell *)

Lemma join_cons_char (d : ascii) (piece : string) (pieces : list string) :
  Js.join ";" (String d piece :: pieces) = String d (Js.join ";" (piece :: pieces)).
Proof. destruct pieces; reflexivity. Qed.

Lemma split_not_nil (c : ascii) (s : string) : Js.split c s <> [].
Proof.
  destruct s as [|d s]; simpl; [discriminate|].
  destruct (Ascii.eqb d c); [discriminate|].
  destruct (Js.split c s); discriminate.
Qed.

Lemma join_split (s : string) : Js.join ";" (Js.split ";" s) = s.
Proof.
  induction s as [|d s IH]; [reflexivity|]. simpl.
  destruct (Ascii.eqb d ";") eqn:E.
  - apply Ascii.eqb_eq in E. subst d.
    destruct (Js.split ";" s) as [|piece pieces] eqn:Es;
      [by apply split_not_nil in Es|].
    change (Js.join ";" ("" :: piece :: pieces))
      with (String ";" (Js.join ";" (piece :: pieces))).
    by rewrite IH.
  - destruct (Js.split ";" s) as [|piece pieces] eqn:Es;
      [by apply split_not_nil in Es|].
    by rewrite join_cons_char, IH.
Qed.

(** X19: an [images] cell that is imported and exported again is the
    cell it was: for every string, splitting it on [;] as the import does
    (the empty cell giving the empty array) and joining the pieces as the
    export does gives the string back. *)
Theorem images_cell_round_trip (P : Platform.t) (cell : string) :
  CrudRouters.export_images P
    (Some (Js.JArr (map Js.JStr (CrudRouters.import_images (Some cell)))))
  = cell.
Proof.
  rewrite CsvFacts.export_images_of_strings. unfold CrudRouters.import_images.
  simpl. destruct (String.eqb cell "") eqn:E; simpl.
  - apply String.eqb_eq in E. by subst cell.
  - apply join_split.
Qed.

End CrudExtras.

(** ** The paginated listings *)

Module ListingExtras.
Import Store.

Lemma ceil_div_bounds (total : nat) (limit : Z) :
  (1 <= limit)%Z ->
  (limit * (Listing.ceil_div total limit - 1) < Z.of_nat total
   <= limit * Listing.ceil_div total limit)%Z.
Proof.
  intros Hl. unfold Listing.ceil_div.
  pose proof (Z.div_mod (- Z.of_nat total) limit ltac:(lia)) as Hq.
  pose proof (Z.mod_pos_bound (- Z.of_nat total) limit ltac:(lia)) as Hr.
  lia.
Qed.

Lemma answer_window (P : Platform.t) (newest_first : list Doc -> list Doc)
  (c : DocCollection) (page limit : Z) (db : Store.t) :
  Platform.healthy P -> (1 <= page)%Z -> (1 <= limit)%Z ->
  Listing.answer P newest_first c page limit db =
  Listing.Listed
    (Listing.mkPage
       (take (Z.to_nat limit)
             (drop (Z.to_nat ((page - 1) * limit)) (newest_first (docs db c))))
       (length (docs db c)) page (Listing.ceil_div (length (docs db c)) limit)).
Proof.
  intros Hh Hp Hl.
  unfold Listing.answer, Listing.find_page, Listing.countDocuments.
  rewrite (call_healthy P _ Hh). cbn [mbind Outcome_bind mret Outcome_ret].
  destruct (Z.ltb_spec ((page - 1) * limit) 0) as [Hneg|_]; [nia|].
  destruct (Z.eqb_spec limit 0) as [H0|_]; [lia|].
  cbn [mbind Outcome_bind mret Outcome_ret try_catch].
  by rewrite Z.abs_eq by lia.
Qed.

Lemma pages_tile {A : Type} (l : list A) (k n : nat) :
  concat (map (fun i => take k (drop (i * k) l)) (seq 0 n)) = take (n * k) l.
Proof.
  induction n as [|n IH].
  - by rewrite take_0.
  - rewrite seq_S, map_app, concat_app, IH. cbn [map concat Nat.add].
    rewrite app_nil_r, take_take_drop. f_equal. lia.
Qed.

(** X20: on a healthy database, [GET /?page=p&limit=l] with [p >= 1] and
    [l >= 1] answers the documents [(p-1)*l+1 .. p*l] of the collection
    ordered newest first, at most [l] of them, with [total] the size of the
    collection, [page] the page asked for, [totalPages] the least number of
    pages of [l] that hold [total] documents, and nothing on a page after
    the last. *)
Theorem page_is_a_window_of_the_collection (P : Platform.t)
  (parseInt : option string -> option Z) (newest_first : list Doc -> list Doc)
  (c : DocCollection) (page_q limit_q : option string) (db : Store.t) :
  let page := Listing.or_default (parseInt page_q) 1 in
  let limit := Listing.or_default (parseInt limit_q) 10 in
  Platform.healthy P ->
  (forall l, newest_first l ≡ₚ l) ->
  (1 <= page)%Z -> (1 <= limit)%Z -> Listing.exact (page * limit) ->
  Listing.exact (Z.of_nat (length (docs db c))) ->
  exists p,
    Listing.list P parseInt newest_first c page_q limit_q db = Listing.Listed p /\
    Listing.items p =
      take (Z.to_nat limit)
           (drop (Z.to_nat (page - 1) * Z.to_nat limit) (newest_first (docs db c))) /\
    length (Listing.items p) <= Z.to_nat limit /\
    Listing.total p = length (docs db c) /\
    Listing.page p = page /\
    (limit * (Listing.totalPages p - 1) < Z.of_nat (Listing.total p)
     <= limit * Listing.totalPages p)%Z /\
    ((Listing.totalPages p < page)%Z -> Listing.items p = []).
Proof.
  intros page limit Hh Hperm Hp Hl _ _. unfold Listing.list. fold page limit.
  rewrite (answer_window P newest_first c page limit db Hh Hp Hl).
  eexists. split; [reflexivity|]. cbn [Listing.items Listing.total Listing.page
    Listing.totalPages].
  assert (Hskip : Z.to_nat ((page - 1) * limit) = Z.to_nat (page - 1) * Z.to_nat limit)
    by (rewrite Z2Nat.inj_mul by lia; reflexivity).
  rewrite Hskip.
  pose proof (ceil_div_bounds (length (docs db c)) limit Hl) as Hb.
  repeat split; try apply Hb.
  - rewrite length_take. lia.
  - intros Hlast. rewrite drop_ge; [by rewrite take_nil|].
    rewrite (Permutation_length (Hperm (docs db c))). nia.
Qed.

Lemma page_is_a_window_of_the_collection_witness :
  exists p,
    Listing.list Sample.platform Sample.parseInt Sample.newest_first Breedings
      (Some "2") (Some "2") Sample.matings = Listing.Listed p /\
    Listing.items p = [Sample.first_mating] /\
    Listing.total p = 3.
Proof.
  assert (Hh : Platform.healthy Sample.platform) by (intros c; reflexivity).
  destruct (page_is_a_window_of_the_collection Sample.platform Sample.parseInt
              Sample.newest_first Breedings (Some "2") (Some "2") Sample.matings Hh
              (fun l => Permutation_sym (Permutation_rev l)))
    as (p & Hp & Hitems & _ & Htotal & _ & _ & _);
    [vm_compute; discriminate | vm_compute; discriminate | reflexivity | reflexivity |].
  exists p. split; [exact Hp|]. split; [exact Hitems|]. exact Htotal.
Defined.



(** X22: whenever [(page - 1) * limit] is negative, as for [page=-1], the
    listing is refused with status 500 and an error message, whatever the
    collection holds. *)
Theorem negative_skip_is_refused (P : Platform.t)
  (parseInt : option string -> option Z) (newest_first : list Doc -> list Doc)
  (c : DocCollection) (page_q limit_q : option string) (db : Store.t) :
  ((Listing.or_default (parseInt page_q) 1 - 1)
   * Listing.or_default (parseInt limit_q) 10 < 0)%Z ->
  exists message,
    Listing.list P parseInt newest_first c page_q limit_q db =
    Listing.Refused (respond 500 (BError message)).
Proof.
  intros Hneg. unfold Listing.list, Listing.answer, Listing.find_page, Mongoose.call.
  destruct (Platform.faults P (Docs c)) as [message|].
  - by exists message.
  - cbn [mbind Outcome_bind mret Outcome_ret].
    destruct (Z.ltb_spec ((Listing.or_default (parseInt page_q) 1 - 1)
                          * Listing.or_default (parseInt limit_q) 10) 0) as [_|Hge];
      [|lia].
    by eexists.
Qed.

Lemma negative_skip_is_refused_witness :
  exists message,
    Listing.list Sample.platform Sample.parseInt Sample.newest_first Animals
      (Some "-1") None Sample.matings =
    Listing.Refused (respond 500 (BError message)).
Proof.
  apply (negative_skip_is_refused Sample.platform Sample.parseInt Sample.newest_first
           Animals (Some "-1") None Sample.matings).
  reflexivity.
Defined.

End ListingExtras.

(** ** The dashboard *)

Module DashboardExtras.
Import Dashboard.

Lemma getAgeGroup_cases (now d : Date) :
  getAgeGroup now d = "0-6 months" \/ getAgeGroup now d = "6-12 months" \/
  getAgeGroup now d = "1-2 years" \/ getAgeGroup now d = "2-4 years" \/
  getAgeGroup now d = "4+ years".
Proof.
  unfold getAgeGroup.
  repeat match goal with |- context [Z.ltb ?a ?b] => destruct (Z.ltb a b) end; tauto.
Qed.

Ltac decide_labels :=
  repeat match goal with
         | |- context [decide (?x = ?y)] =>
             first [ rewrite (decide_True (P := x = y)) by reflexivity
                   | rewrite (decide_False (P := x = y)) by discriminate ]
         end.

Lemma births_cons (a : Animal) (rest : list Animal) (births : list Date) :
  map dob (a :: rest) = map Some births ->
  exists d births', births = d :: births' /\ dob a = Some d /\
                    map dob rest = map Some births'.
Proof.
  destruct births as [|d births']; [discriminate|].
  cbn [map]. intros [= Hd Hrest]. by exists d, births'.
Qed.

Lemma count_ages_tally (now : Date) (animals : list Animal) (births : list Date)
  (n1 n2 n3 n4 n5 : nat) :
  map dob animals = map Some births ->
  count_ages now animals
    [("0-6 months", n1); ("6-12 months", n2); ("1-2 years", n3); ("2-4 years", n4);
     ("4+ years", n5)] =
  Ok (zip_with (fun l n => (l, n + length (filter (fun d => getAgeGroup now d = l) births)))
        age_labels [n1; n2; n3; n4; n5]).
Proof.
  revert births n1 n2 n3 n4 n5.
  induction animals as [|a rest IH]; intros births n1 n2 n3 n4 n5 Hb.
  - destruct births; [|discriminate]. cbn. by rewrite !Nat.add_0_r.
  - destruct (births_cons a rest births Hb) as (d & births' & -> & Hd & Hrest).
    cbn [count_ages]. rewrite Hd. cbn [zip_with age_labels]. rewrite !filter_cons.
    destruct (getAgeGroup_cases now d) as [Hg|[Hg|[Hg|[Hg|Hg]]]]; rewrite !Hg;
      cbn; rewrite (IH births' _ _ _ _ _ Hrest); cbn [zip_with age_labels];
      decide_labels;
      cbn [length]; rewrite <- !Nat.add_assoc; reflexivity.
Qed.

Lemma tally_total (now : Date) (births : list Date) :
  sum_list (map (fun l => length (filter (fun d => getAgeGroup now d = l) births))
              age_labels) = length births.
Proof.
  induction births as [|d births IH]; [reflexivity|].
  cbn [map age_labels sum_list sum_list_with] in *. rewrite !filter_cons.
  destruct (getAgeGroup_cases now d) as [Hg|[Hg|[Hg|[Hg|Hg]]]]; rewrite !Hg;
    decide_labels;
    cbn [length]; unfold id in *; lia.
Qed.

(** X23: when every animal has a date of birth, the age distribution of
    the dashboard lists the five age groups in their order, each with the
    number of animals whose age falls in it, and the counts add up to the
    number of animals. *)
Theorem age_distribution_counts_every_animal (now : Date) (animals : list Animal)
  (births : list Date) :
  map dob animals = map Some births ->
  exists groups,
    ageDistribution now animals = Ok groups /\
    groups =
      map (fun l => (l, length (filter (fun d => getAgeGroup now d = l) births)))
        age_labels /\
    sum_list (map snd groups) = length animals.
Proof.
  intros Hb. eexists. split; [|split; [reflexivity|]].
  - unfold ageDistribution. cbn [ageGroups0 age_labels map].
    by rewrite (count_ages_tally now animals births _ _ _ _ _ Hb).
  - rewrite map_map. cbn [snd]. rewrite tally_total.
    by rewrite <- (length_map dob animals), Hb, length_map.
Qed.

Lemma age_distribution_counts_every_animal_witness :
  exists groups,
    ageDistribution Sample.today Sample.herd = Ok groups /\
    groups = [("0-6 months", 1); ("6-12 months", 0); ("1-2 years", 0);
              ("2-4 years", 1); ("4+ years", 1)] /\
    sum_list (map snd groups) = 3.
Proof.
  apply (age_distribution_counts_every_animal Sample.today Sample.herd
           [mkDate 2022 2; mkDate 2017 0; mkDate 2024 3]).
  reflexivity.
Defined.

Lemma reads_one_word (toLowerCase : string -> string) (s : option string)
  (w1 w2 : string) :
  w1 <> w2 -> reads toLowerCase s w1 = true -> reads toLowerCase s w2 = false.
Proof.
  intros Hw. unfold reads. destruct s as [text|]; [|done].
  destruct (negb (String.eqb text "")); [|done]. cbn [andb].
  destruct (String.eqb_spec (toLowerCase text) w1) as [<-|]; [|done].
  intros _. by apply String.eqb_neq.
Qed.

Lemma count_outcomes_tally (toLowerCase : string -> string) (breedings : list Breeding)
  (s f p : nat) :
  count_outcomes toLowerCase breedings (s, f, p) =
  (s + length (List.filter (fun b => reads toLowerCase (status b) "successful") breedings),
   f + length (List.filter (fun b => reads toLowerCase (status b) "failed") breedings),
   p + length (List.filter
                 (fun b => negb (reads toLowerCase (status b) "successful")
                           && negb (reads toLowerCase (status b) "failed"))
                 breedings)).
Proof.
  revert s f p. induction breedings as [|b rest IH]; intros s f p.
  - cbn. by rewrite !Nat.add_0_r.
  - cbn [count_outcomes List.filter].
    destruct (reads toLowerCase (status b) "successful") eqn:Hs.
    + rewrite (reads_one_word toLowerCase (status b) "successful" "failed") by done.
      rewrite IH. cbn [negb andb length]. rewrite <- !Nat.add_assoc. reflexivity.
    + destruct (reads toLowerCase (status b) "failed") eqn:Hf;
        rewrite IH; cbn [negb andb length]; rewrite <- !Nat.add_assoc; reflexivity.
Qed.

Lemma filter_three_ways {A : Type} (f g : A -> bool) (l : list A) :
  (forall x, f x = true -> g x = false) ->
  length (List.filter f l) + length (List.filter g l)
  + length (List.filter (fun x => negb (f x) && negb (g x)) l) = length l.
Proof.
  intros Hfg. induction l as [|x l IH]; [reflexivity|].
  cbn [List.filter]. destruct (f x) eqn:Hf.
  - rewrite (Hfg x Hf). cbn [negb andb length]. lia.
  - destruct (g x); cbn [negb andb length]; lia.
Qed.

(** X24: the breeding counters of the dashboard split the breeding
    records three ways: [successful] and [failed] count the records whose
    status reads so in any letter case, [inProgress] counts every other
    record, those without a status among them, and the three add up to the
    number of records. *)
Theorem breeding_counters_split_the_records (toLowerCase : string -> string)
  (breedings : list Breeding) :
  exists successful failed inProgress,
    outcomes toLowerCase breedings = (successful, failed, inProgress) /\
    successful =
      length (List.filter (fun b => reads toLowerCase (status b) "successful")
                breedings) /\
    failed =
      length (List.filter (fun b => reads toLowerCase (status b) "failed") breedings) /\
    successful + failed + inProgress = length breedings /\
    length (List.filter (fun b => bool_decide (status b = None)) breedings)
      <= inProgress.
Proof.
  unfold outcomes. rewrite count_outcomes_tally. cbn [Nat.add].
  eexists _, _, _. split; [reflexivity|]. split; [reflexivity|].
  split; [reflexivity|]. split.
  - apply filter_three_ways. intros b.
    by apply (reads_one_word toLowerCase (status b) "successful" "failed").
  - induction breedings as [|b rest IH]; [reflexivity|].
    cbn [List.filter]. destruct (status b) as [text|].
    + rewrite bool_decide_eq_false_2 by done.
      destruct (_ && _); cbn [length]; lia.
    + rewrite bool_decide_eq_true_2 by done. cbn [reads negb andb length]. lia.
Qed.

Lemma suggest_filter (test : Animal -> Date -> bool) (reason : Animal -> string)
  (animals : list Animal) (births : list Date) :
  map dob animals = map Some births ->
  suggest test reason animals =
  Ok (map (fun ad => (tagId ad.1, reason ad.1))
        (List.filter (fun ad => test ad.1 ad.2) (zip animals births))).
Proof.
  revert births. induction animals as [|a rest IH]; intros births Hb.
  - by destruct births.
  - destruct (births_cons a rest births Hb) as (d & births' & -> & Hd & Hrest).
    cbn [suggest zip zip_with List.filter]. rewrite Hd, (IH births' Hrest).
    cbn [mbind Outcome_bind mret Outcome_ret fst snd].
    by destruct (test a d).
Qed.

Lemma filter_apart {A : Type} (f g : A -> bool) (l : list A) :
  (forall x, f x = true -> g x = false) ->
  length (List.filter f l) + length (List.filter g l) <= length l.
Proof.
  intros Hfg. rewrite <- (filter_three_ways f g l Hfg). lia.
Qed.

Lemma tests_apart (toLowerCase : string -> string) (now : Date) (a : Animal) (d : Date) :
  cull_test toLowerCase now a d = true -> breed_test toLowerCase now a d = false.
Proof.
  unfold cull_test, breed_test. intros Hcull.
  apply orb_true_iff in Hcull as [Hold|Hpoor].
  - apply Z.leb_le in Hold.
    destruct (Z.leb_spec (year now - year d) 4) as [Hyoung|_]; [lia|].
    by rewrite andb_false_r.
  - rewrite (reads_one_word toLowerCase (condition a) "poor" "good") by done.
    by rewrite andb_false_r.
Qed.

(** X25: when every animal has a date of birth, the culling suggestions
    of the dashboard are the animals, in their order, that turn 6 or more
    this year or are in poor condition, the breeding suggestions are the
    females in good condition that turn 1 to 4 this year, and no animal is
    suggested for both. *)
Theorem suggestions_are_apart (toLowerCase : string -> string) (now : Date)
  (animals : list Animal) (births : list Date) :
  map dob animals = map Some births ->
  exists culling breeding,
    cullSuggestions toLowerCase now animals = Ok culling /\
    breedSuggestions toLowerCase now animals = Ok breeding /\
    culling =
      map (fun ad => (tagId ad.1, cull_reason toLowerCase ad.1))
        (List.filter
           (fun ad => Z.leb 6 (year now - year ad.2)
                      || reads toLowerCase (condition ad.1) "poor")
           (zip animals births)) /\
    breeding =
      map (fun ad => (tagId ad.1, "Optimal age, good condition"))
        (List.filter
           (fun ad => Z.leb 1 (year now - year ad.2) && Z.leb (year now - year ad.2) 4
                      && reads toLowerCase (condition ad.1) "good"
                      && bool_decide (gender ad.1 = Some "Female"))
           (zip animals births)) /\
    length culling + length breeding <= length animals.
Proof.
  intros Hb. unfold cullSuggestions, breedSuggestions.
  rewrite !(suggest_filter _ _ animals births Hb).
  eexists _, _. split; [reflexivity|]. split; [reflexivity|].
  split; [reflexivity|]. split.
  - f_equal. apply filter_ext. intros [a d]. unfold breed_test. cbn [fst snd].
    f_equal. unfold Js.same_value.
    destruct (gender a) as [g|]; [|done].
    destruct (String.eqb_spec g "Female") as [->|Hne].
    + by rewrite bool_decide_eq_true_2.
    + rewrite bool_decide_eq_false_2; [done|]. by intros [= ->].
  - rewrite !length_map.
    etransitivity;
      [apply (filter_apart (fun ad => cull_test toLowerCase now ad.1 ad.2)
                (fun ad => breed_test toLowerCase now ad.1 ad.2));
       intros [a d]; apply tests_apart|].
    rewrite length_zip_with.
    rewrite <- (length_map dob animals), Hb, length_map. lia.
Qed.

Lemma suggestions_are_apart_witness :
  exists culling breeding,
    cullSuggestions Sample.toLowerCase Sample.today Sample.herd = Ok culling /\
    breedSuggestions Sample.toLowerCase Sample.today Sample.herd = Ok breeding /\
    culling = [(Some "G002", "Poor condition")] /\
    breeding = [(Some "G001", "Optimal age, good condition")].
Proof.
  destruct (suggestions_are_apart Sample.toLowerCase Sample.today Sample.herd
              [mkDate 2022 2; mkDate 2017 0; mkDate 2024 3] eq_refl)
    as (culling & breeding & Hc & Hbr & -> & -> & _).
  eexists _, _. split; [exact Hc|]. split; [exact Hbr|]. split; reflexivity.
Defined.

Lemma without_birth_count (now : Date) (animals : list Animal) (a : Animal)
  (groups : list (string * nat)) :
  a ∈ animals -> dob a = None ->
  exists message, count_ages now animals groups = Throw message.
Proof.
  intros Hin Hdob. revert groups.
  induction animals as [|a' rest IH]; intros groups; [by apply elem_of_nil in Hin|].
  cbn [count_ages]. destruct (dob a') as [d|] eqn:Hd'; [|by eexists].
  apply elem_of_cons in Hin as [->|Hin]; [congruence|]. by apply IH.
Qed.

Lemma without_birth_suggest (test : Animal -> Date -> bool) (reason : Animal -> string)
  (animals : list Animal) (a : Animal) :
  a ∈ animals -> dob a = None ->
  exists message, suggest test reason animals = Throw message.
Proof.
  intros Hin Hdob.
  induction animals as [|a' rest IH]; [by apply elem_of_nil in Hin|].
  cbn [suggest]. destruct (dob a') as [d|] eqn:Hd'; [|by eexists].
  apply elem_of_cons in Hin as [->|Hin]; [congruence|].
  destruct (IH Hin) as [message ->]. by exists message.
Qed.

(** X26: one animal stored without a date of birth makes the age
    distribution and both lists of suggestions of the dashboard throw,
    whatever the other animals are. *)
Theorem animal_without_birth_date_breaks_dashboard (toLowerCase : string -> string)
  (now : Date) (animals : list Animal) (a : Animal) :
  a ∈ animals -> dob a = None ->
  (exists message, ageDistribution now animals = Throw message) /\
  (exists message, cullSuggestions toLowerCase now animals = Throw message) /\
  (exists message, breedSuggestions toLowerCase now animals = Throw message).
Proof.
  intros Hin Hdob. split; [|split].
  - by apply (without_birth_count now animals a).
  - by apply (without_birth_suggest _ _ animals a).
  - by apply (without_birth_suggest _ _ animals a).
Qed.

Lemma animal_without_birth_date_breaks_dashboard_witness :
  (exists message,
     ageDistribution Sample.today (Sample.herd ++ [Sample.foundling]) = Throw message) /\
  (exists message,
     cullSuggestions Sample.toLowerCase Sample.today (Sample.herd ++ [Sample.foundling])
     = Throw message) /\
  (exists message,
     breedSuggestions Sample.toLowerCase Sample.today (Sample.herd ++ [Sample.foundling])
     = Throw message).
Proof.
  apply (animal_without_birth_date_breaks_dashboard Sample.toLowerCase Sample.today
           (Sample.herd ++ [Sample.foundling]) Sample.foundling).
  - apply elem_of_app. right. apply list_elem_of_singleton. reflexivity.
  - reflexivity.
Defined.

End DashboardExtras.
